(** * Holiday travel dashboard: the per-state aggregation pipeline

    A shallow embedding of the data pipeline of [analysis.py]: the three
    loaders ([load_noaa_temperature_data], [load_airport_passengers],
    [load_flight_delays]), [combine_datasets] and the conversion
    [convert_to_serializable] of the figures, followed by their properties.

    Conventions of the embedding.
    - A Python [str] is a [string]; the text handled here is ASCII.
    - A [float64] is a primitive [float] (IEEE 754 binary64), with NaN as
      the missing value of pandas.
    - An [int64] column holds [Z] values and its arithmetic wraps around.
    - A numeric column of a CSV file is int64 or float64 by the way its
      cells are written, and an int64 column that receives a missing value
      in a merge becomes float64.
    - The sum and the mean of a group of float64 values skip the missing
      ones and add the others in row order with a compensation, as the
      group kernels of pandas do.
    - A file is the list of its lines, a CSV file the frame [read_csv] makes
      of it.
    - A raised exception is the [Raise] branch of [result].
    - A data frame is the list of its rows, one record per row. *)

From Stdlib Require Import ZArith List String Ascii Bool Lia Sorted Permutation.
From Stdlib Require Import Floats Uint63.
Import ListNotations.

Local Open Scope string_scope.
Local Open Scope Z_scope.

(** ** Python builtins used by the loaders *)

Module Py.

Inductive exn : Set := IndexError | ValueError | KeyError.

Inductive result (A : Type) : Type :=
| Ok (a : A)
| Raise (e : exn).
Arguments Ok {A} a.
Arguments Raise {A} e.

Definition bind {A B : Type} (m : result A) (k : A -> result B) : result B :=
  match m with
  | Ok a => k a
  | Raise e => Raise e
  end.

Definition of_option {A : Type} (e : exn) (o : option A) : result A :=
  match o with
  | Some a => Ok a
  | None => Raise e
  end.

(** [[f(x) for x in xs]]: the first failing element aborts the whole list. *)
Fixpoint traverse {A B : Type} (f : A -> result B) (xs : list A) : result (list B) :=
  match xs with
  | [] => Ok []
  | x :: xs' =>
      bind (f x) (fun y => bind (traverse f xs') (fun ys => Ok (y :: ys)))
  end.

(** [str.isspace] on one ASCII character: tab, line feed, vertical tab, form
    feed, carriage return, the four separators 0x1c..0x1f, and space. *)
Definition isspace (c : ascii) : bool :=
  let n := N_of_ascii c in
  ((9 <=? n) && (n <=? 13) || (28 <=? n) && (n <=? 32))%N.

(** [s.split()] with no argument: the maximal runs of non-space characters.
    [cur] is the token being read. *)
Fixpoint split_from (cur : string) (s : string) : list string :=
  match s with
  | EmptyString => if (cur =? "")%string then [] else [cur]
  | String c s' =>
      if isspace c
      then (if (cur =? "")%string then split_from "" s' else cur :: split_from "" s')
      else split_from (cur ++ String c "") s'
  end.

Definition split (s : string) : list string := split_from "" s.

(** [s[i:j]] for [0 <= i <= j]: clamped to the string, never raises. *)
Definition slice (i j : nat) (s : string) : string := substring i (j - i) s.

(** [s[i]]: raises IndexError outside the string. *)
Definition index (s : string) (i : nat) : result ascii :=
  of_option IndexError (get i s).

(** [xs[i:j]] on a list. *)
Definition slice_list {A : Type} (i j : nat) (xs : list A) : list A :=
  firstn (j - i) (skipn i xs).

Definition isdigit (c : ascii) : bool :=
  let n := N_of_ascii c in ((48 <=? n) && (n <=? 57))%N.

Definition digit_value (c : ascii) : Z := Z.of_N (N_of_ascii c) - 48.

(** The body of a decimal literal for [int()]: digits, with single
    underscores allowed between two digits. *)
Inductive lit_state : Set := AtStart | AfterDigit | AfterUnderscore.

Fixpoint int_digits (st : lit_state) (acc : Z) (s : string) : option Z :=
  match s with
  | EmptyString =>
      match st with
      | AfterDigit => Some acc
      | _ => None
      end
  | String c s' =>
      if isdigit c then int_digits AfterDigit (10 * acc + digit_value c) s'
      else if (c =? "_")%char then
        match st with
        | AfterDigit => int_digits AfterUnderscore acc s'
        | _ => None
        end
      else None
  end.

(** [int(s)] on a string without surrounding white space (every string it
    is applied to is a slice of a token of [split]): an optional sign and a
    decimal literal; anything else raises ValueError. *)
Definition int (s : string) : result Z :=
  of_option ValueError
    match s with
    | String "+" s' => int_digits AtStart 0 s'
    | String "-" s' => option_map Z.opp (int_digits AtStart 0 s')
    | _ => int_digits AtStart 0 s
    end.

(** [s.lstrip('0')]. *)
Fixpoint lstrip0 (s : string) : string :=
  match s with
  | String "0" s' => lstrip0 s'
  | _ => s
  end.

(** [s.zfill(2)]: left-pad with zeros to width 2, after a leading sign. (A
    pandas release whose [.str.zfill] pads before the sign differs on the two
    strings "+" and "-" only, and neither result is a key of [STATE_FIPS].) *)
Definition zfill2 (s : string) : string :=
  match s with
  | EmptyString => "00"
  | String c EmptyString =>
      if ((c =? "+") || (c =? "-"))%char then String c "0" else String "0" s
  | _ => s
  end.

(** [y in range(lo, hi)]. *)
Definition in_range (lo hi y : Z) : bool := (lo <=? y) && (y <? hi).

End Py.

Notation "x <- m ;; k" := (Py.bind m (fun x => k))
  (at level 61, m at next level, right associativity).

(** ** The pandas operations used by the pipeline *)

Module Pd.

(** *** int64 columns *)

Definition wrap64 (z : Z) : Z := (z + 2 ^ 63) mod 2 ^ 64 - 2 ^ 63.

Definition add64 (a b : Z) : Z := wrap64 (a + b).

(** ['sum'] over an int64 column. *)
Definition sum64 (xs : list Z) : Z := fold_left add64 xs 0.

(** The cast of an int64 to float64 (round to nearest). *)
Definition float_of_int64 (z : Z) : float :=
  let z := wrap64 z in
  if z =? - 2 ^ 63 then (-0x1p63)%float
  else if z <? 0 then PrimFloat.opp (PrimFloat.of_uint63 (Uint63.of_Z (- z)))
  else PrimFloat.of_uint63 (Uint63.of_Z z).

(** *** float64 columns; NaN is the missing value *)

Definition isna (x : float) : bool := PrimFloat.is_nan x.

(** One step of the group kernels: the running sum [sumx] and its
    [compensation] (Kahan summation); a compensation that is NaN, as after an
    infinite value, is reset to 0. *)
Definition kahan_step (st : float * float) (val : float) : float * float :=
  let '(sumx, compensation) := st in
  let y := (val - compensation)%float in
  let t := (sumx + y)%float in
  let c := (t - sumx - y)%float in
  (t, if isna c then 0%float else c).

Definition add_skipna (st : float * float) (val : float) : float * float :=
  if isna val then st else kahan_step st val.

(** ['sum'] over the float64 values of a group: missing values are skipped,
    the others are added in row order with compensation, and the empty sum
    is 0. *)
Definition fsum (xs : list float) : float :=
  fst (fold_left add_skipna xs (0%float, 0%float)).

Definition count (xs : list float) : nat :=
  List.length (filter (fun x => negb (isna x)) xs).

(** ['mean'] over the float64 values of a group: the compensated sum of the
    present values over their number, NaN when there is none. *)
Definition fmean (xs : list float) : float :=
  if (count xs =? 0)%nat then nan
  else (fsum xs / float_of_int64 (Z.of_nat (count xs)))%float.

(** *** A numeric column of a CSV file

    [read_csv] makes a column int64 when every cell of it is written as an
    integer, and float64 as soon as one cell is written with a decimal point
    or is empty (NaN); the integer-written cells of a float64 column are read
    as floats. [Int z] is a cell written as an integer of the int64 range,
    [Float f] any other cell, [Float nan] the empty one. *)
Inductive number : Type :=
| Int (z : Z)
| Float (f : float).

Definition is_int (x : number) : bool :=
  match x with
  | Int _ => true
  | Float _ => false
  end.

Definition int64_column (xs : list number) : bool := forallb is_int xs.

Definition to_float (x : number) : float :=
  match x with
  | Int z => float_of_int64 z
  | Float f => f
  end.

Definition to_int (x : number) : Z :=
  match x with
  | Int z => z
  | Float _ => 0
  end.

Definition notna (x : number) : bool :=
  match x with
  | Int _ => true
  | Float f => negb (isna f)
  end.

Definition mul64 (a b : Z) : Z := wrap64 (a * b).

(** One cell of [column * counts], [counts] being an int64 column: an int64
    product when the column is int64, a float64 product otherwise. *)
Definition times (int_column : bool) (x : number) (n : Z) : number :=
  if int_column then Int (mul64 (to_int x) n)
  else Float (to_float x * float_of_int64 n)%float.

(** ['sum'] over the cells of a group of such a column. *)
Definition column_sum (int_column : bool) (xs : list number) : number :=
  if int_column then Int (sum64 (map to_int xs)) else Float (fsum (map to_float xs)).

(** One cell of [column / counts]: the division of the two values as
    floats. *)
Definition true_divide (x : number) (n : Z) : float :=
  (to_float x / float_of_int64 n)%float.

(** [Series.fillna(0)] on a float64 column. *)
Definition fillna0 (x : float) : float := if isna x then 0%float else x.

(** The number in a cell of an int64 column of the right table after a left
    merge: [None] is the missing value (NaN) the merge writes where the right
    table has no match. A column that receives a missing value is held as
    float64, so the numbers of its other cells are the int64 values rounded
    to float64 ([rounded]); a column without missing value stays int64. *)
Definition cell : Type := option Z.

(** The integer a float holds (0 for an infinity or NaN). *)
Definition Z_of_float (x : float) : Z :=
  match Prim2SF x with
  | S754_finite s m e =>
      let v := Z.shiftl (Z.pos m) e in if s then - v else v
  | _ => 0
  end.

(** An int64 after its cast to float64. *)
Definition rounded (z : Z) : Z := Z_of_float (float_of_int64 z).

(** The merge leaves a missing value in the columns of the right table. *)
Definition has_missing {L R : Type} (merged : list (L * option R)) : bool :=
  existsb (fun x => match snd x with None => true | Some _ => false end) merged.

(** The number an int64 value shows in a merged column; [promoted] tells
    that the column has a missing value. *)
Definition held (promoted : bool) (z : Z) : Z := if promoted then rounded z else z.

(** A cell of an int64 column of the right table in a merged row. *)
Definition merged_int {R : Type} (promoted : bool) (f : R -> Z) (o : option R) : cell :=
  option_map (fun r => held promoted (f r)) o.

(** [Series.fillna(0)] on such a column. *)
Definition fillna0_cell (c : cell) : cell :=
  match c with
  | Some z => Some z
  | None => Some 0
  end.

(** *** [DataFrame.groupby(key)]

    The groups are kept in increasing key order (the default
    [sort=True]), every group lists its rows in the order of the frame, and
    a row whose key is missing belongs to no group (the default
    [dropna=True]). *)
Section GroupBy.
Context {R : Type}.
Variable key : R -> option string.

Fixpoint add_to_group (k : string) (r : R) (groups : list (string * list R))
  : list (string * list R) :=
  match groups with
  | [] => [(k, [r])]
  | (k', g) :: rest =>
      match String.compare k k' with
      | Eq => (k', (g ++ [r])%list) :: rest
      | Lt => (k, [r]) :: groups
      | Gt => (k', g) :: add_to_group k r rest
      end
  end.

Definition group_step (groups : list (string * list R)) (r : R) :=
  match key r with
  | Some k => add_to_group k r groups
  | None => groups
  end.

Definition groupby (rows : list R) : list (string * list R) :=
  fold_left group_step rows [].
End GroupBy.

(** *** [left.merge(right, on=key, how='left')]

    Every left row is kept, in order; it is paired with each right row of
    the same key, or with nothing when there is none. *)
Section Merge.
Context {L R : Type}.
Variable lkey : L -> string.
Variable rkey : R -> string.

Definition matches (l : L) (right : list R) : list R :=
  filter (fun r => (rkey r =? lkey l)%string) right.

Definition merge_left (left : list L) (right : list R) : list (L * option R) :=
  flat_map (fun l =>
              match matches l right with
              | [] => [(l, None)]
              | ms => map (fun r => (l, Some r)) ms
              end) left.
End Merge.

End Pd.

(** ** The state reference table *)

Definition STATE_FIPS : list (string * (string * string)) :=
  [ ("01", ("AL", "Alabama")); ("02", ("AZ", "Arizona")); ("03", ("AR", "Arkansas"));
    ("04", ("CA", "California")); ("05", ("CO", "Colorado")); ("06", ("CT", "Connecticut"));
    ("07", ("DE", "Delaware")); ("08", ("FL", "Florida")); ("09", ("GA", "Georgia"));
    ("10", ("ID", "Idaho")); ("11", ("IL", "Illinois")); ("12", ("IN", "Indiana"));
    ("13", ("IA", "Iowa")); ("14", ("KS", "Kansas")); ("15", ("KY", "Kentucky"));
    ("16", ("LA", "Louisiana")); ("17", ("ME", "Maine")); ("18", ("MD", "Maryland"));
    ("19", ("MA", "Massachusetts")); ("20", ("MI", "Michigan")); ("21", ("MN", "Minnesota"));
    ("22", ("MS", "Mississippi")); ("23", ("MO", "Missouri")); ("24", ("MT", "Montana"));
    ("25", ("NE", "Nebraska")); ("26", ("NV", "Nevada")); ("27", ("NH", "New Hampshire"));
    ("28", ("NJ", "New Jersey")); ("29", ("NM", "New Mexico")); ("30", ("NY", "New York"));
    ("31", ("NC", "North Carolina")); ("32", ("ND", "North Dakota")); ("33", ("OH", "Ohio"));
    ("34", ("OK", "Oklahoma")); ("35", ("OR", "Oregon")); ("36", ("PA", "Pennsylvania"));
    ("37", ("RI", "Rhode Island")); ("38", ("SC", "South Carolina")); ("39", ("SD", "South Dakota"));
    ("40", ("TN", "Tennessee")); ("41", ("TX", "Texas")); ("42", ("UT", "Utah"));
    ("43", ("VT", "Vermont")); ("44", ("VA", "Virginia")); ("45", ("WA", "Washington"));
    ("46", ("WV", "West Virginia")); ("47", ("WI", "Wisconsin")); ("48", ("WY", "Wyoming"));
    ("50", ("AK", "Alaska")); ("51", ("HI", "Hawaii")) ].

(** [STATE_FIPS.get(x)]: the table has no repeated key. *)
Fixpoint dict_get {V : Type} (d : list (string * V)) (x : string) : option V :=
  match d with
  | [] => None
  | (k, v) :: d' => if (k =? x)%string then Some v else dict_get d' x
  end.

(** [x for x in map(f, xs) if x is not None]. *)
Fixpoint map_dropna {A B : Type} (f : A -> option B) (xs : list A) : list B :=
  match xs with
  | [] => []
  | x :: xs' =>
      match f x with
      | Some y => y :: map_dropna f xs'
      | None => map_dropna f xs'
      end
  end.

(** ** The temperature loader *)

Module Temperature.

(** One entry of [data_rows]; [temps] are the twelve monthly values. *)
Record raw_row : Type := {
  code : string;
  state_fips : string;
  division : string;
  year : Z;
  temps : list float
}.

Definition nov (r : raw_row) : float := nth 10 (temps r) nan.
Definition dec (r : raw_row) : float := nth 11 (temps r) nan.

(** One row of the frame the loader returns. *)
Record row : Type := {
  state_code : string;
  state_name : string;
  avg_dec_temperature : float;
  avg_nov_temperature : float
}.

(** One row of [dec_avg] right after the group-by. *)
Record state_mean : Type := {
  mean_fips : string;
  mean_dec : float;
  mean_nov : float
}.

Definition current_year : Z := 2024.

(** [df['year'].isin(years_range)] on one row. *)
Definition in_years (r : raw_row) : bool :=
  Py.in_range (current_year - 4) (current_year + 1) (year r).

(** [df[(df['division'] == d) & (df['year'].isin(years_range))]]. *)
Definition select (d : string) (df : list raw_row) : list raw_row :=
  filter (fun r => (division r =? d)%string && in_years r) df.

(** The rows that are averaged: division 00, or division 01 when the
    division 00 selection is empty. *)
Definition statewide_rows (df : list raw_row) : list raw_row :=
  let statewide := select "00" df in
  if (List.length statewide =? 0)%nat then select "01" df else statewide.

(** [statewide.groupby('state_fips').agg({'dec': 'mean', 'nov': 'mean'})]. *)
Definition aggregate (statewide : list raw_row) : list state_mean :=
  map (fun kg : string * list raw_row =>
         {| mean_fips := fst kg;
            mean_dec := Pd.fmean (map dec (snd kg));
            mean_nov := Pd.fmean (map nov (snd kg)) |})
      (Pd.groupby (fun r => Some (state_fips r)) statewide).

(** The 2-digit key of a 3-digit FIPS. *)
Definition state_fips_2 (fips : string) : string := Py.zfill2 (Py.lstrip0 fips).

(** The look-up in [STATE_FIPS]; a row whose state code is [None] is dropped
    by the [notna] filter. *)
Definition resolve (m : state_mean) : option row :=
  match dict_get STATE_FIPS (state_fips_2 (mean_fips m)) with
  | Some (c, n) =>
      Some {| state_code := c; state_name := n;
              avg_dec_temperature := mean_dec m;
              avg_nov_temperature := mean_nov m |}
  | None => None
  end.

Definition hawaii_row : row :=
  {| state_code := "HI"; state_name := "Hawaii";
     avg_dec_temperature := 73.0%float; avg_nov_temperature := 75.0%float |}.

(** ['HI' not in dec_avg['state_code'].values], then the [concat]. *)
Definition add_hawaii (dec_avg : list row) : list row :=
  if existsb (String.eqb "HI") (map state_code dec_avg)
  then dec_avg
  else (dec_avg ++ [hawaii_row])%list.

Section Loader.

(** Python's [float()] on a token: the value, or [None] where it raises
    ValueError (the only exception it has for a string). *)
Variable py_float : string -> option float.

(** The body of the loop over the lines of the file: [None] when the line is
    skipped. *)
Definition parse_line (line : string) : Py.result (option raw_row) :=
  let parts := Py.split line in
  if (13 <=? List.length parts)%nat then
    let code := hd "" parts in
    let state_fips := Py.slice 0 3 code in
    let division := Py.slice 3 5 code in
    element <- Py.index code 5 ;;
    year <- Py.int (Py.slice 6 10 code) ;;
    temps <- Py.traverse (fun x => Py.of_option Py.ValueError (py_float x))
               (Py.slice_list 1 13 parts) ;;
    Py.Ok (Some {| code := code; state_fips := state_fips; division := division;
                   year := year; temps := temps |})
  else Py.Ok None.

(** The loop: [data_rows] grows by one row per accepted line, and the first
    exception ends it. *)
Fixpoint read_rows (data_rows : list raw_row) (lines : list string)
  : Py.result (list raw_row) :=
  match lines with
  | [] => Py.Ok data_rows
  | line :: rest =>
      r <- parse_line line ;;
      read_rows (match r with
                 | Some x => (data_rows ++ [x])%list
                 | None => data_rows
                 end) rest
  end.

(** The loader, on the lines of the file. A frame built from an empty
    [data_rows] has no column, and selecting [df['division']] raises
    KeyError. *)
Definition load_noaa_temperature_data (lines : list string) : Py.result (list row) :=
  df <- read_rows [] lines ;;
  match df with
  | [] => Py.Raise Py.KeyError
  | _ :: _ =>
      let statewide := statewide_rows df in
      let dec_avg := aggregate statewide in
      let dec_avg := map_dropna resolve dec_avg in
      Py.Ok (add_hawaii dec_avg)
  end.

End Loader.
End Temperature.

(** ** The passenger loader *)

(** One row of the passenger CSV as [read_csv] returns it: the two count
    columns are int64, and a key cell may be empty. *)
Module PassengerCsv.
Record row : Type := {
  state_code : option string;
  nov_passengers : Z;
  dec_passengers : Z
}.
End PassengerCsv.

Module Passengers.

Record row : Type := {
  state_code : string;
  holiday_travel_volume : Z;
  nov_passengers : Z;
  dec_passengers : Z
}.

Definition load_airport_passengers (df : list PassengerCsv.row) : list row :=
  map (fun kg : string * list PassengerCsv.row =>
         let nov := Pd.sum64 (map PassengerCsv.nov_passengers (snd kg)) in
         let dec := Pd.sum64 (map PassengerCsv.dec_passengers (snd kg)) in
         {| state_code := fst kg;
            holiday_travel_volume := Pd.add64 nov dec;
            nov_passengers := nov;
            dec_passengers := dec |})
      (Pd.groupby PassengerCsv.state_code df).

End Passengers.

(** ** The delay loader *)

(** One row of the delay CSV as [read_csv] returns it: the cells of the two
    rate columns are integer-written or float-written (an empty cell is NaN),
    which decides the type of each column as a whole; the three count columns
    are int64, and a key cell may be empty. *)
Module DelayCsv.
Record row : Type := {
  state_code : option string;
  delay_pct : Pd.number;
  avg_delay_minutes : Pd.number;
  total_flights : Z;
  delayed_flights : Z;
  cancelled_flights : Z
}.
End DelayCsv.

Module Delays.

Record row : Type := {
  state_code : string;
  avg_delay_pct : float;
  avg_delay_minutes : float;
  total_flights : Z;
  delayed_flights : Z;
  cancelled_flights : Z
}.

(** [df['delay_pct'] * df['total_flights']] on one row; [int_rates] tells
    that the [delay_pct] column is int64. *)
Definition weighted_delay (int_rates : bool) (r : DelayCsv.row) : Pd.number :=
  Pd.times int_rates (DelayCsv.delay_pct r) (DelayCsv.total_flights r).

(** [df['avg_delay_minutes'] * df['delayed_flights']] on one row. *)
Definition weighted_minutes (int_minutes : bool) (r : DelayCsv.row) : Pd.number :=
  Pd.times int_minutes (DelayCsv.avg_delay_minutes r) (DelayCsv.delayed_flights r).

Definition load_flight_delays (df : list DelayCsv.row) : list row :=
  let int_rates := Pd.int64_column (map DelayCsv.delay_pct df) in
  let int_minutes := Pd.int64_column (map DelayCsv.avg_delay_minutes df) in
  map (fun kg : string * list DelayCsv.row =>
         let total := Pd.sum64 (map DelayCsv.total_flights (snd kg)) in
         let delayed := Pd.sum64 (map DelayCsv.delayed_flights (snd kg)) in
         let cancelled := Pd.sum64 (map DelayCsv.cancelled_flights (snd kg)) in
         let wdelay :=
           Pd.column_sum int_rates (map (weighted_delay int_rates) (snd kg)) in
         let wminutes :=
           Pd.column_sum int_minutes (map (weighted_minutes int_minutes) (snd kg)) in
         {| state_code := fst kg;
            avg_delay_pct := Pd.true_divide wdelay total;
            avg_delay_minutes := Pd.true_divide wminutes delayed;
            total_flights := total;
            delayed_flights := delayed;
            cancelled_flights := cancelled |})
      (Pd.groupby DelayCsv.state_code df).

End Delays.

(** ** The combiner *)

Module Combined.

Record row : Type := {
  state_code : string;
  state_name : string;
  avg_dec_temperature : float;
  avg_nov_temperature : float;
  holiday_travel_volume : Pd.cell;
  nov_passengers : Pd.cell;
  dec_passengers : Pd.cell;
  avg_delay_pct : float;
  avg_delay_minutes : float;
  total_flights : Pd.cell;
  delayed_flights : Pd.cell;
  cancelled_flights : Pd.cell
}.

(** A float64 column of the right table in a merged row. *)
Definition float_cell {R : Type} (f : R -> float) (o : option R) : float :=
  match o with
  | Some r => f r
  | None => nan
  end.

(** The merged row with the two [fillna(0)] applied; [p_float] and
    [d_float] tell that the passenger columns, and the delay columns, have a
    missing value. *)
Definition fill (p_float d_float : bool)
  (x : Temperature.row * option Passengers.row * option Delays.row) : row :=
  let '(t, p, d) := x in
  {| state_code := Temperature.state_code t;
     state_name := Temperature.state_name t;
     avg_dec_temperature := Temperature.avg_dec_temperature t;
     avg_nov_temperature := Temperature.avg_nov_temperature t;
     holiday_travel_volume :=
       Pd.fillna0_cell (Pd.merged_int p_float Passengers.holiday_travel_volume p);
     nov_passengers := Pd.merged_int p_float Passengers.nov_passengers p;
     dec_passengers := Pd.merged_int p_float Passengers.dec_passengers p;
     avg_delay_pct := Pd.fillna0 (float_cell Delays.avg_delay_pct d);
     avg_delay_minutes := float_cell Delays.avg_delay_minutes d;
     total_flights := Pd.merged_int d_float Delays.total_flights d;
     delayed_flights := Pd.merged_int d_float Delays.delayed_flights d;
     cancelled_flights := Pd.merged_int d_float Delays.cancelled_flights d |}.

Definition combine_datasets (passengers_df : list Passengers.row)
  (delays_df : list Delays.row) (temp_df : list Temperature.row) : list row :=
  let combined := temp_df in
  let combined :=
    Pd.merge_left Temperature.state_code Passengers.state_code combined passengers_df in
  let p_float := Pd.has_missing combined in
  let combined :=
    Pd.merge_left (fun x => Temperature.state_code (fst x)) Delays.state_code
      combined delays_df in
  let d_float := Pd.has_missing combined in
  map (fill p_float d_float) combined.

End Combined.

(** ** A reader for the decimal tokens of the sample files

    The properties of the temperature loader are stated for every reading of
    [float()]; the samples below are run with this one. It reads an optional
    sign and at most 15 digits with an optional decimal point, which is where
    one correctly rounded division gives the value [float()] returns; every
    other token is rejected. *)

Fixpoint read_digits (acc : Z) (n : nat) (s : string) : Z * nat * string :=
  match s with
  | String c s' =>
      if Py.isdigit c then read_digits (10 * acc + Py.digit_value c) (S n) s'
      else (acc, n, s)
  | EmptyString => (acc, n, s)
  end.

Definition unsigned_decimal (s : string) : option float :=
  let '(i, ni, rest) := read_digits 0 0 s in
  let '(v, nf, rest') :=
    match rest with
    | String "." r => read_digits i 0 r
    | _ => (i, 0%nat, rest)
    end in
  match rest' with
  | EmptyString =>
      if ((0 <? ni + nf) && (ni + nf <=? 15))%nat
      then Some (Pd.float_of_int64 v / Pd.float_of_int64 (10 ^ Z.of_nat nf))%float
      else None
  | _ => None
  end.

Definition sample_float (s : string) : option float :=
  match s with
  | String "-" s' => option_map PrimFloat.opp (unsigned_decimal s')
  | String "+" s' => unsigned_decimal s'
  | _ => unsigned_decimal s
  end.

(** ** Vocabulary of the properties *)

(** The order of the keys: Python compares strings by code point. *)
Definition key_lt (a b : string) : Prop := String.compare a b = Lt.

Section Groups.
Context {R : Type}.
Variable key : R -> option string.

(** The rows of key [k], as a selection from the frame. *)
Definition has_key (k : string) (r : R) : bool :=
  match key r with
  | Some k' => (k' =? k)%string
  | None => false
  end.

Definition rows_of (k : string) (rows : list R) : list R := filter (has_key k) rows.

Definition above (k : string) (gs : list (string * list R)) : Prop :=
  Forall (fun y => key_lt k (fst y)) gs.

Definition sorted_groups (gs : list (string * list R)) : Prop :=
  StronglySorted (fun x y => key_lt (fst x) (fst y)) gs.

(** What one more row does to the group of key [k']. *)
Definition extend (o : option (list R)) (r : R) : list R :=
  match o with
  | Some g => (g ++ [r])%list
  | None => [r]
  end.

(** The group of [k] after the rows [rows] were added to the groups [gs]. *)
Definition grown (o : option (list R)) (more : list R) : option (list R) :=
  match o, more with
  | None, [] => None
  | None, _ :: _ => Some more
  | Some g, _ => Some (g ++ more)%list
  end.

End Groups.

(** The range of an int64, and the sum of a column without wrap-around. *)
Definition in_int64 (z : Z) : Prop := - 2 ^ 63 <= z < 2 ^ 63.

Definition zsum (xs : list Z) : Z := fold_right Z.add 0 xs.

(** The mean of all the values of a column, none skipped: their compensated
    sum in row order, over their number. *)
Definition mean_of_all (xs : list float) : float :=
  (fst (fold_left Pd.kahan_step xs (0, 0)) / Pd.float_of_int64 (Z.of_nat (List.length xs)))%float.

(** [sum(rate * count) / sum(count)] as the delay loader evaluates it, the
    numerator summed over the rows [numer] and the denominator over the rows
    [denom]; [int_column] tells that the rate column is int64. *)
Definition weighted_average {R : Type} (int_column : bool) (rate : R -> Pd.number)
  (count : R -> Z) (numer denom : list R) : float :=
  Pd.true_divide
    (Pd.column_sum int_column (map (fun r => Pd.times int_column (rate r) (count r)) numer))
    (Pd.sum64 (map count denom)).

(** [sum(rate * count) / sum(count)] with every row of [g] in both sums, as
    the specification words the two averages. *)
Definition stated_average {R : Type} (rate : R -> Pd.number) (count : R -> Z)
  (g : list R) : float :=
  (fold_left PrimFloat.add
     (map (fun r => Pd.to_float (rate r) * Pd.float_of_int64 (count r))%float g) 0%float
   / Pd.float_of_int64 (zsum (map count g)))%float.

(** The strings of a list are pairwise different. *)
Fixpoint distinct (xs : list string) : bool :=
  match xs with
  | [] => true
  | x :: xs' => negb (existsb (String.eqb x) xs') && distinct xs'
  end.

(** ** Sample inputs *)

Definition ca_markets : list PassengerCsv.row :=
  [ {| PassengerCsv.state_code := Some "CA";
       PassengerCsv.nov_passengers := 100; PassengerCsv.dec_passengers := 50 |};
    {| PassengerCsv.state_code := Some "CA";
       PassengerCsv.nov_passengers := 200; PassengerCsv.dec_passengers := 75 |} ].

Definition delay_market (s : string) (pct minutes : float) (total delayed cancelled : Z)
  : DelayCsv.row :=
  {| DelayCsv.state_code := Some s; DelayCsv.delay_pct := Pd.Float pct;
     DelayCsv.avg_delay_minutes := Pd.Float minutes; DelayCsv.total_flights := total;
     DelayCsv.delayed_flights := delayed; DelayCsv.cancelled_flights := cancelled |}.

(** Two markets of one state, with delay rates 10 and 20 over 100 and 300
    flights. *)
Definition tx_markets : list DelayCsv.row :=
  [ delay_market "TX" 10 30 100 10 1; delay_market "TX" 20 50 300 60 2 ].

(** The same two markets, the second one without its delay rate (an empty
    cell of the CSV file). *)
Definition missing_rate_markets : list DelayCsv.row :=
  [ delay_market "TX" 10 30 100 10 1; delay_market "TX" nan 50 300 60 2 ].

(** The same two markets in a file that writes every rate and every delay
    without a decimal point: both columns are int64. *)
Definition integer_markets : list DelayCsv.row :=
  [ {| DelayCsv.state_code := Some "TX"; DelayCsv.delay_pct := Pd.Int 10;
       DelayCsv.avg_delay_minutes := Pd.Int 30; DelayCsv.total_flights := 100;
       DelayCsv.delayed_flights := 10; DelayCsv.cancelled_flights := 1 |};
    {| DelayCsv.state_code := Some "TX"; DelayCsv.delay_pct := Pd.Int 20;
       DelayCsv.avg_delay_minutes := Pd.Int 50; DelayCsv.total_flights := 300;
       DelayCsv.delayed_flights := 60; DelayCsv.cancelled_flights := 2 |} ].

(** A state whose markets report no flight at all. *)
Definition idle_markets : list DelayCsv.row :=
  [ delay_market "WY" 10 30 0 0 0 ].

(** Markets whose flight counts cancel out while the weighted delays do not. *)
Definition cancelling_markets : list DelayCsv.row :=
  [ delay_market "WY" 10 30 5 5 0; delay_market "WY" 20 30 (-5) (-5) 0 ].

(** Lines of a temperature file: a code token and twelve monthly values. *)
Definition temperature_line (code nov dec : string) : string :=
  code ++ " 1 2 3 4 5 6 7 8 9 10 " ++ nov ++ " " ++ dec.

(** A file without any data line. *)
Definition comment_lines : list string :=
  [ "NOAA climate divisional data"; ""; "0010022020 45.5 50.5" ].

(** A line of 13 tokens whose first token has a single character. *)
Definition short_code_line : string := "1 1 2 3 4 5 6 7 8 9 10 11 12".

(** Alabama over the five years of the window, and one year before it. *)
Definition alabama_lines : list string :=
  [ temperature_line "0010022019" "90" "90";
    temperature_line "0010022020" "50" "40";
    temperature_line "0010022021" "52" "42";
    temperature_line "0010022022" "54" "44";
    temperature_line "0010022023" "56" "46";
    temperature_line "0010022024" "58" "48";
    "climate division file" ].

(** Alabama statewide, Arizona by its first division only. *)
Definition mixed_lines : list string :=
  [ temperature_line "0010022020" "50" "40";
    temperature_line "0020122020" "60" "55" ].

(** First divisions only. *)
Definition division_lines : list string :=
  [ temperature_line "0010122020" "51" "41";
    temperature_line "0020122020" "60" "55";
    temperature_line "0020122010" "10" "10" ].

(** A file with a record for Hawaii (FIPS 51). *)
Definition hawaii_lines : list string :=
  [ temperature_line "0510022020" "76" "70";
    temperature_line "0510022021" "78" "72" ].

(** ** Vocabulary of the temperature properties *)

(** The key of the group-by of the temperature loader. *)
Definition fips_key (r : Temperature.raw_row) : option string :=
  Some (Temperature.state_fips r).

(** The rows of a state (3-digit FIPS [f]) and division [d] in the window. *)
Definition matching_rows (f d : string) (df : list Temperature.raw_row)
  : list Temperature.raw_row :=
  filter (fun r => (Temperature.state_fips r =? f)%string
                   && (Temperature.division r =? d)%string
                   && Temperature.in_years r) df.

(** No row of division 00 lies in the window. *)
Definition fallback_active (df : list Temperature.raw_row) : bool :=
  negb (existsb (fun r => (Temperature.division r =? "00")%string
                          && Temperature.in_years r) df).

(** The table before the Hawaii step. *)
Definition resolved_means (df : list Temperature.raw_row) : list Temperature.row :=
  map_dropna Temperature.resolve (Temperature.aggregate (Temperature.statewide_rows df)).

(** The row of a state averaged over the rows [g]. *)
Definition mean_row (c n : string) (g : list Temperature.raw_row) : Temperature.row :=
  {| Temperature.state_code := c; Temperature.state_name := n;
     Temperature.avg_dec_temperature := Pd.fmean (map Temperature.dec g);
     Temperature.avg_nov_temperature := Pd.fmean (map Temperature.nov g) |}.

(** The temperature table of [mixed_lines]: Alabama and the synthetic Hawaii. *)
Definition mixed_temperatures : list Temperature.row :=
  [ {| Temperature.state_code := "AL"; Temperature.state_name := "Alabama";
       Temperature.avg_dec_temperature := 40; Temperature.avg_nov_temperature := 50 |};
    Temperature.hawaii_row ].

(** ** The reverse table and the JSON conversion *)

(** [d[k] = v] on a dict: the value of an existing key is replaced in place,
    a new key goes last. *)
Fixpoint dict_set {V : Type} (d : list (string * V)) (k : string) (v : V)
  : list (string * V) :=
  match d with
  | [] => [(k, v)]
  | (k', v') :: d' =>
      if (k' =? k)%string then (k', v) :: d' else (k', v') :: dict_set d' k v
  end.

(** [{v[0]: v[1] for v in STATE_FIPS.values()}]. *)
Definition STATE_NAMES : list (string * string) :=
  fold_left (fun d e => dict_set d (fst (snd e)) (snd (snd e))) STATE_FIPS [].

Module Dashboard.

(** A numpy array and the Python values a figure dictionary is made of.
    A 0-d array is one element, an n-d array a sequence of (n-1)-d arrays;
    an element is an integer, a float, a boolean, a string or, in an array
    of objects, any value. [NpInteger] is a numpy integer of at most 64
    bits, signed or unsigned, [NpOther] a numpy scalar that is neither an
    integer nor a floating number (a numpy boolean or string, for
    instance) and [PyOther] any other Python value, both given by their
    text. *)
#[warnings="-register-all"]
Inductive ndarray : Type :=
| NdInt (z : Z)
| NdFloat (f : float)
| NdBool (b : bool)
| NdStr (s : string)
| NdObject (o : pyobj)
| NdAxis (items : list ndarray)
with pyobj : Type :=
| PyDict (items : list (string * pyobj))
| PyList (items : list pyobj)
| PyTuple (items : list pyobj)
| NdArray (a : ndarray)
| NpInteger (z : Z)
| NpFloating (f : float)
| NpOther (text : string)
| PyInt (z : Z)
| PyFloat (f : float)
| PyStr (s : string)
| PyBool (b : bool)
| PyNone
| PyOther (text : string).

(** [a.tolist()]: nested lists, with Python scalars for the numbers, the
    booleans and the strings, and the elements of an array of objects as
    they are. *)
Fixpoint tolist (a : ndarray) : pyobj :=
  match a with
  | NdInt z => PyInt z
  | NdFloat f => PyFloat f
  | NdBool b => PyBool b
  | NdStr s => PyStr s
  | NdObject o => o
  | NdAxis items => PyList (map tolist items)
  end.

(** [float(z)] for a numpy integer: the cast of an int64 below [2 ^ 63];
    above, in the range of uint64 alone, the cast of the upper 63 bits with
    the lowest bit kept as a sticky bit, doubled. *)
Definition float_of_integer (z : Z) : float :=
  if z <? 2 ^ 63 then Pd.float_of_int64 z
  else (PrimFloat.of_uint63 (Uint63.of_Z (Z.lor (Z.shiftr z 1) (Z.land z 1))) * 2)%float.

Fixpoint convert_to_serializable (obj : pyobj) : pyobj :=
  match obj with
  | PyDict items =>
      PyDict (map (fun kv => let '(k, v) := kv in (k, convert_to_serializable v)) items)
  | PyList items => PyList (map convert_to_serializable items)
  | NdArray a => tolist a
  | NpInteger z => PyFloat (float_of_integer z)
  | NpFloating f => PyFloat f
  | _ => obj
  end.

(** No numpy array and no numpy scalar anywhere in the value, tuples
    included. *)
Fixpoint numpy_free (obj : pyobj) : bool :=
  match obj with
  | PyDict items => forallb (fun kv => let '(k, v) := kv in numpy_free v) items
  | PyList items => forallb numpy_free items
  | PyTuple items => forallb numpy_free items
  | NdArray _ | NpInteger _ | NpFloating _ | NpOther _ => false
  | _ => true
  end.

End Dashboard.

(** A row that neither selection can keep: its year is outside the window,
    or its division is neither 00 nor 01. *)
Definition never_selected (r : Temperature.raw_row) : Prop :=
  Temperature.in_years r = false
  \/ (Temperature.division r <> "00" /\ Temperature.division r <> "01").

(** The rows of a CSV frame that have a state code. *)
Definition keyed {R : Type} (key : R -> option string) (rows : list R) : list R :=
  filter (fun r => match key r with Some _ => true | None => false end) rows.

(** The temperature columns of a combined row. *)
Definition temperature_part (row : Combined.row) : Temperature.row :=
  {| Temperature.state_code := Combined.state_code row;
     Temperature.state_name := Combined.state_name row;
     Temperature.avg_dec_temperature := Combined.avg_dec_temperature row;
     Temperature.avg_nov_temperature := Combined.avg_nov_temperature row |}.

(** Some row of the temperature frame has no row of its state in the other
    frame, whose state codes are [codes]. *)
Definition some_unmatched (T : list Temperature.row) (codes : list string) : bool :=
  existsb (fun t => negb (existsb (String.eqb (Temperature.state_code t)) codes)) T.

(** One airport with more November passengers than a float64 holds exactly. *)
Definition crowded_airports : list PassengerCsv.row :=
  [ {| PassengerCsv.state_code := Some "WY";
       PassengerCsv.nov_passengers := 9007199254740993;
       PassengerCsv.dec_passengers := 0 |} ].

(** Wyoming: one airport, a temperature table with Hawaii beside it, and the
    combined row to expect with the markets of [idle_markets]. *)
Definition wyoming_airports : list PassengerCsv.row :=
  [ {| PassengerCsv.state_code := Some "WY";
       PassengerCsv.nov_passengers := 10; PassengerCsv.dec_passengers := 20 |} ].

Definition wyoming_temperatures : list Temperature.row :=
  [ {| Temperature.state_code := "WY"; Temperature.state_name := "Wyoming";
       Temperature.avg_dec_temperature := 20; Temperature.avg_nov_temperature := 30 |};
    Temperature.hawaii_row ].

Definition wyoming_combined : Combined.row :=
  {| Combined.state_code := "WY"; Combined.state_name := "Wyoming";
     Combined.avg_dec_temperature := 20; Combined.avg_nov_temperature := 30;
     Combined.holiday_travel_volume := Some 30;
     Combined.nov_passengers := Some 10; Combined.dec_passengers := Some 20;
     Combined.avg_delay_pct := 0; Combined.avg_delay_minutes := nan;
     Combined.total_flights := Some 0; Combined.delayed_flights := Some 0;
     Combined.cancelled_flights := Some 0 |}.

(** * Properties *)

(** ** Samples of the builtins *)

Example split_line :
  Py.split "  0010022020  45.3	 50.1 " = ["0010022020"; "45.3"; "50.1"].
Proof. reflexivity. Qed.

Example int_year : Py.int (Py.slice 6 10 "0010022020") = Py.Ok 2020.
Proof. reflexivity. Qed.

Example int_literals :
  Py.int "2_02" = Py.Ok 202 /\ Py.int "2__2" = Py.Raise Py.ValueError
  /\ Py.int "" = Py.Raise Py.ValueError /\ Py.int "-12" = Py.Ok (-12).
Proof. repeat split; reflexivity. Qed.

Example fips_keys :
  Temperature.state_fips_2 "001" = "01" /\ Temperature.state_fips_2 "051" = "51"
  /\ Temperature.state_fips_2 "000" = "00" /\ Temperature.state_fips_2 "110" = "110"
  /\ Py.zfill2 "-" = "-0".
Proof. repeat split; reflexivity. Qed.

Example sample_float_values :
  sample_float "45.5" = Some 45.5%float /\ sample_float "-7.25" = Some (-7.25)%float
  /\ sample_float "12" = Some 12%float /\ sample_float "x" = None.
Proof. repeat split; reflexivity. Qed.

Example cast_values :
  Pd.float_of_int64 400 = 400%float /\ Pd.float_of_int64 (-3) = (-3)%float
  /\ Pd.float_of_int64 0 = 0%float /\ Pd.wrap64 (2 ^ 63) = - 2 ^ 63.
Proof. repeat split; reflexivity. Qed.

(** ** The order of the keys *)


Lemma ascii_compare_refl (a : ascii) : Ascii.compare a a = Eq.
Proof. unfold Ascii.compare. apply N.compare_refl. Qed.

Lemma ascii_compare_lt_trans (a b c : ascii) :
  Ascii.compare a b = Lt -> Ascii.compare b c = Lt -> Ascii.compare a c = Lt.
Proof.
  unfold Ascii.compare. rewrite !N.compare_lt_iff. apply N.lt_trans.
Qed.

Lemma string_compare_refl (a : string) : String.compare a a = Eq.
Proof.
  induction a as [|x a IH]; simpl; [reflexivity|].
  now rewrite ascii_compare_refl.
Qed.

Lemma key_lt_irrefl (a : string) : ~ key_lt a a.
Proof.
  unfold key_lt. intros H. rewrite string_compare_refl in H. discriminate.
Qed.

Lemma key_lt_trans (a b c : string) : key_lt a b -> key_lt b c -> key_lt a c.
Proof.
  unfold key_lt. revert b c.
  induction a as [|x a IH]; intros [|y b] [|z c]; simpl; try congruence.
  destruct (Ascii.compare x y) eqn:Exy; try congruence.
  - apply Ascii.compare_eq_iff in Exy. subst y.
    destruct (Ascii.compare x z) eqn:Exz; try congruence. apply IH.
  - destruct (Ascii.compare y z) eqn:Eyz; try congruence.
    + apply Ascii.compare_eq_iff in Eyz. subst z. now rewrite Exy.
    + now rewrite (ascii_compare_lt_trans _ _ _ Exy Eyz).
Qed.

Lemma compare_gt_lt (a b : string) : String.compare a b = Gt -> key_lt b a.
Proof.
  unfold key_lt. intros H. rewrite String.compare_antisym, H. reflexivity.
Qed.

Lemma key_lt_neq (a b : string) : key_lt a b -> (b =? a)%string = false.
Proof.
  intros H. apply String.eqb_neq. intros ->. exact (key_lt_irrefl _ H).
Qed.

Lemma key_lt_neq' (a b : string) : key_lt a b -> (a =? b)%string = false.
Proof. intros H. rewrite String.eqb_sym. now apply key_lt_neq. Qed.

(** ** The group-by: one group per distinct key, holding exactly its rows *)

Section GroupByFacts.
Context {R : Type}.
Variable key : R -> option string.



Lemma add_to_group_above (k0 k : string) (r : R) (gs : list (string * list R)) :
  key_lt k0 k -> above k0 gs -> above k0 (Pd.add_to_group k r gs).
Proof.
  intros Hk. unfold above. induction gs as [|[k' g] gs IH]; simpl; intros H.
  - constructor; [exact Hk | constructor].
  - inversion H as [|? ? H1 H2]; subst.
    destruct (String.compare k k'); constructor; simpl; auto.
Qed.

Lemma add_to_group_sorted (k : string) (r : R) (gs : list (string * list R)) :
  sorted_groups gs -> sorted_groups (Pd.add_to_group k r gs).
Proof.
  unfold sorted_groups. induction gs as [|[k' g] gs IH]; simpl; intros H.
  - constructor; constructor.
  - inversion H as [|? ? H1 H2]; subst.
    destruct (String.compare k k') eqn:E.
    + constructor; assumption.
    + constructor; [exact H|]. constructor; [exact E|].
      eapply Forall_impl; [|exact H2]. simpl. intros y Hy.
      eapply key_lt_trans; [exact E | exact Hy].
    + constructor; [apply IH; exact H1|].
      apply add_to_group_above; [now apply compare_gt_lt | exact H2].
Qed.

Lemma get_above (k : string) (gs : list (string * list R)) : above k gs -> dict_get gs k = None.
Proof.
  unfold above. induction gs as [|[k' g] gs IH]; simpl; intros H; [reflexivity|].
  inversion H as [|? ? H1 H2]; subst. simpl in H1.
  rewrite (key_lt_neq _ _ H1). now apply IH.
Qed.


Lemma add_to_group_get (k k' : string) (r : R) (gs : list (string * list R)) :
  sorted_groups gs ->
  dict_get (Pd.add_to_group k r gs) k' =
  if (k =? k')%string then Some (extend (dict_get gs k) r) else dict_get gs k'.
Proof.
  unfold sorted_groups. induction gs as [|[k1 g] gs IH]; simpl; intros H.
  - destruct (k =? k')%string; reflexivity.
  - inversion H as [|? ? H1 H2]; subst.
    destruct (String.compare k k1) eqn:E.
    + apply String.compare_eq_iff in E. subst k1. simpl.
      rewrite String.eqb_refl.
      destruct (k =? k')%string; reflexivity.
    + simpl. rewrite (key_lt_neq _ _ E).
      destruct (k =? k')%string eqn:Ek; [|reflexivity].
      f_equal. unfold extend.
      rewrite get_above; [reflexivity|].
      eapply Forall_impl; [|exact H2]. simpl. intros y Hy.
      eapply key_lt_trans; [exact E | exact Hy].
    + simpl. rewrite (IH H1).
      apply compare_gt_lt in E.
      rewrite (key_lt_neq' _ _ E).
      destruct (k1 =? k')%string eqn:E1; [|reflexivity].
      apply String.eqb_eq in E1. subst k'.
      now rewrite (key_lt_neq _ _ E).
Qed.


Lemma grown_extend (o : option (list R)) (r : R) (more : list R) :
  grown (Some (extend o r)) more = grown o (r :: more).
Proof.
  destruct o; simpl; [now rewrite <- app_assoc | reflexivity].
Qed.

Lemma fold_groups (rows : list R) :
  forall gs : list (string * list R), sorted_groups gs ->
    sorted_groups (fold_left (Pd.group_step key) rows gs)
    /\ forall k, dict_get (fold_left (Pd.group_step key) rows gs) k
                 = grown (dict_get gs k) (rows_of key k rows).
Proof.
  induction rows as [|r rows IH]; simpl; intros gs Hs.
  - split; [exact Hs|]. intros k. destruct (dict_get gs k); simpl;
      [now rewrite app_nil_r | reflexivity].
  - unfold Pd.group_step at 2 4. unfold has_key.
    destruct (key r) as [kr|] eqn:Ekr.
    + destruct (IH _ (add_to_group_sorted kr r gs Hs)) as [H1 H2].
      split; [exact H1|]. intros k. rewrite H2.
      rewrite add_to_group_get by exact Hs.
      destruct (kr =? k)%string eqn:E.
      * apply String.eqb_eq in E. subst k. apply grown_extend.
      * reflexivity.
    + destruct (IH _ Hs) as [H1 H2]. split; [exact H1|]. exact H2.
Qed.

Lemma groupby_sorted (rows : list R) : sorted_groups (Pd.groupby key rows).
Proof. apply fold_groups. constructor. Qed.

Lemma groupby_get (rows : list R) (k : string) :
  dict_get (Pd.groupby key rows) k =
  match rows_of key k rows with
  | [] => None
  | g => Some g
  end.
Proof.
  unfold Pd.groupby.
  destruct (fold_groups rows [] (SSorted_nil _)) as [_ H].
  rewrite H. simpl. destruct (rows_of key k rows); reflexivity.
Qed.

Lemma sorted_nodup (gs : list (string * list R)) : sorted_groups gs -> NoDup (map fst gs).
Proof.
  unfold sorted_groups. induction gs as [|[k g] gs IH]; simpl; intros H.
  - constructor.
  - inversion H as [|? ? H1 H2]; subst. constructor; [|now apply IH].
    intros Hin. apply in_map_iff in Hin. destruct Hin as [[k' g'] [E Hin]].
    simpl in E. subst k'.
    rewrite Forall_forall in H2. specialize (H2 _ Hin). simpl in H2.
    exact (key_lt_irrefl _ H2).
Qed.

Lemma sorted_in_get (gs : list (string * list R)) (k : string) (g : list R) :
  sorted_groups gs -> (In (k, g) gs <-> dict_get gs k = Some g).
Proof.
  unfold sorted_groups. induction gs as [|[k1 g1] gs IH]; simpl; intros H.
  - split; [tauto | discriminate].
  - inversion H as [|? ? H1 H2]; subst.
    destruct (k1 =? k)%string eqn:E.
    + apply String.eqb_eq in E. subst k1. split.
      * intros [Heq | Hin]; [congruence|].
        rewrite Forall_forall in H2. specialize (H2 _ Hin). simpl in H2.
        destruct (key_lt_irrefl _ H2).
      * intros Heq. left. congruence.
    + apply String.eqb_neq in E. rewrite <- (IH H1). split.
      * intros [Heq | Hin]; [congruence | exact Hin].
      * intros Hin. right. exact Hin.
Qed.

(** The groups of [groupby] are exactly the non-empty selections. *)
Lemma groupby_in (rows : list R) (k : string) (g : list R) :
  In (k, g) (Pd.groupby key rows) <-> g = rows_of key k rows /\ g <> [].
Proof.
  rewrite (sorted_in_get _ k g (groupby_sorted rows)), groupby_get.
  destruct (rows_of key k rows) as [|r l].
  - split; [discriminate | intros [-> H]; congruence].
  - split; [intros [= <-]; split; [reflexivity | discriminate] | intros [-> _]; reflexivity].
Qed.

Lemma rows_of_nonempty (rows : list R) (k : string) :
  rows_of key k rows <> [] <-> In (Some k) (map key rows).
Proof.
  unfold rows_of. split.
  - intros H. destruct (filter (has_key key k) rows) as [|r l] eqn:E; [congruence|].
    assert (Hin : In r (filter (has_key key k) rows)) by (rewrite E; now left).
    apply filter_In in Hin. destruct Hin as [Hin Hk].
    unfold has_key in Hk. destruct (key r) as [k'|] eqn:Ek; [|discriminate].
    apply String.eqb_eq in Hk. subst k'.
    apply in_map_iff. exists r. split; assumption.
  - intros Hin. apply in_map_iff in Hin. destruct Hin as [r [Ek Hin]].
    intros E.
    assert (Hf : In r (filter (has_key key k) rows)).
    { apply filter_In. split; [exact Hin|]. unfold has_key. rewrite Ek.
      apply String.eqb_refl. }
    rewrite E in Hf. destruct Hf.
Qed.

Lemma groupby_keys (rows : list R) (k : string) :
  In k (map fst (Pd.groupby key rows)) <-> In (Some k) (map key rows).
Proof.
  rewrite <- rows_of_nonempty. split.
  - intros Hin. apply in_map_iff in Hin. destruct Hin as [[k' g] [E Hin]].
    simpl in E. subst k'. apply groupby_in in Hin. destruct Hin as [-> H]. exact H.
  - intros H. apply in_map_iff. exists (k, rows_of key k rows). split; [reflexivity|].
    apply groupby_in. split; [reflexivity | exact H].
Qed.

Lemma groupby_nodup (rows : list R) : NoDup (map fst (Pd.groupby key rows)).
Proof. apply sorted_nodup, groupby_sorted. Qed.

End GroupByFacts.

(** ** int64 sums *)

Lemma wrap64_id (z : Z) : in_int64 z -> Pd.wrap64 z = z.
Proof.
  unfold in_int64, Pd.wrap64. intros H.
  rewrite Z.mod_small by lia. lia.
Qed.

Lemma wrap64_add_l (a b : Z) : Pd.wrap64 (Pd.wrap64 a + b) = Pd.wrap64 (a + b).
Proof.
  unfold Pd.wrap64. f_equal.
  replace ((a + 2 ^ 63) mod 2 ^ 64 - 2 ^ 63 + b + 2 ^ 63)
    with ((a + 2 ^ 63) mod 2 ^ 64 + b) by lia.
  rewrite Zplus_mod_idemp_l. f_equal. lia.
Qed.

Lemma fold_add64 (xs : list Z) :
  forall a, fold_left Pd.add64 xs (Pd.wrap64 a) = Pd.wrap64 (a + zsum xs).
Proof.
  induction xs as [|x xs IH]; simpl; intros a.
  - now rewrite Z.add_0_r.
  - unfold Pd.add64 at 2. rewrite wrap64_add_l, IH. f_equal. lia.
Qed.

(** An int64 sum is the exact sum, wrapped once. *)
Lemma sum64_wrap (xs : list Z) : Pd.sum64 xs = Pd.wrap64 (zsum xs).
Proof.
  unfold Pd.sum64. change 0 with (Pd.wrap64 0) at 1. now rewrite fold_add64.
Qed.

Lemma sum64_exact (xs : list Z) : in_int64 (zsum xs) -> Pd.sum64 xs = zsum xs.
Proof. intros H. rewrite sum64_wrap. now apply wrap64_id. Qed.

(** ** float64 sums and means *)

Lemma fold_add_skipna (xs : list float) :
  Forall (fun x => Pd.isna x = false) xs ->
  forall st, fold_left Pd.add_skipna xs st = fold_left Pd.kahan_step xs st.
Proof.
  induction 1 as [|x xs Hx _ IH]; simpl; intros st; [reflexivity|].
  unfold Pd.add_skipna at 2. rewrite Hx. apply IH.
Qed.

Lemma count_all (xs : list float) :
  Forall (fun x => Pd.isna x = false) xs -> Pd.count xs = List.length xs.
Proof.
  unfold Pd.count. induction 1 as [|x xs Hx _ IH]; simpl; [reflexivity|].
  rewrite Hx. simpl. now rewrite IH.
Qed.

(** Without missing values, ['mean'] is the mean of all the values. *)
Lemma fmean_mean_of_all (xs : list float) :
  Forall (fun x => Pd.isna x = false) xs -> Pd.fmean xs = mean_of_all xs.
Proof.
  intros H. unfold Pd.fmean, mean_of_all, Pd.fsum.
  rewrite fold_add_skipna, count_all by assumption.
  destruct xs; reflexivity.
Qed.

Example mean_of_five :
  Pd.fmean [40; 42; 44; 46; 48]%float = 44%float
  /\ Pd.fmean [40; nan; 44]%float = 42%float
  /\ Pd.isna (Pd.fmean []) = true.
Proof. repeat split; reflexivity. Qed.

(** The compensation at work: one tenth, two tenths and three tenths add up
    to six tenths, which the plain sum from left to right misses, and their
    mean is the third of six tenths. *)
Example compensated_sum :
  Pd.fsum [1 / 10; 2 / 10; 3 / 10]%float = (6 / 10)%float
  /\ (1 / 10 + 2 / 10 + 3 / 10 =? 6 / 10)%float = false
  /\ Pd.fmean [1 / 10; 2 / 10; 3 / 10]%float = (6 / 10 / 3)%float
  /\ ((1 / 10 + 2 / 10 + 3 / 10) / 3 =? 6 / 10 / 3)%float = false.
Proof. repeat split; reflexivity. Qed.

Lemma is_nan_spec (x : float) : Pd.isna x = true <-> Prim2SF x = S754_nan.
Proof.
  unfold Pd.isna, PrimFloat.is_nan. rewrite FloatAxioms.eqb_spec.
  destruct (Prim2SF x) as [s|s| |s m e]; simpl.
  - destruct s; split; discriminate.
  - destruct s; split; discriminate.
  - split; reflexivity.
  - unfold SFeqb, SFcompare. rewrite Z.compare_refl, Pos.compare_refl.
    destruct s; split; discriminate.
Qed.

(** NaN times anything is NaN. *)
Lemma mul_nan_l (x y : float) : Pd.isna x = true -> Pd.isna (x * y) = true.
Proof.
  rewrite !is_nan_spec, FloatAxioms.mul_spec. intros ->. reflexivity.
Qed.

Lemma fsum_skips_missing {R : Type} (w : R -> float) (p : R -> bool) (g : list R) :
  (forall r, p r = false -> Pd.isna (w r) = true) ->
  Pd.fsum (map w g) = Pd.fsum (map w (filter p g)).
Proof.
  intros H. unfold Pd.fsum. f_equal. generalize (0%float, 0%float).
  induction g as [|r g IH]; simpl; intros st; [reflexivity|].
  destruct (p r) eqn:E; simpl.
  - apply IH.
  - unfold Pd.add_skipna at 2. rewrite (H r E). apply IH.
Qed.

Lemma zsum_skips_zero {R : Type} (w : R -> Z) (p : R -> bool) (g : list R) :
  (forall r, p r = false -> w r = 0) ->
  zsum (map w (filter p g)) = zsum (map w g).
Proof.
  intros H. induction g as [|r g IH]; simpl; [reflexivity|].
  destruct (p r) eqn:E; simpl; rewrite IH; [reflexivity|].
  now rewrite (H r E).
Qed.

(** The rows without a rate add nothing to [sum(rate * count)]. *)
Lemma weighted_average_skips_missing {R : Type} (int_column : bool)
  (rate : R -> Pd.number) (count : R -> Z) (g denom : list R) :
  weighted_average int_column rate count (filter (fun r => Pd.notna (rate r)) g) denom
  = weighted_average int_column rate count g denom.
Proof.
  unfold weighted_average, Pd.column_sum, Pd.times. destruct int_column; cbv iota.
  - f_equal. f_equal. rewrite !map_map, !sum64_wrap. f_equal.
    apply zsum_skips_zero. intros r Hr.
    destruct (rate r); [discriminate Hr | reflexivity].
  - rewrite !map_map. f_equal. f_equal. symmetry.
    apply fsum_skips_missing. intros r Hr. simpl.
    destruct (rate r) as [z|x]; [discriminate Hr|]. simpl in Hr. simpl.
    apply negb_false_iff in Hr. now apply mul_nan_l.
Qed.
(** ** Aggregating the groups: one output row per distinct key *)

Section Aggregation.
Context {R O : Type}.
Variable key : R -> option string.
Variable f : string * list R -> O.

Lemma in_aggregated (rows : list R) (out : O) :
  In out (map f (Pd.groupby key rows)) <->
  exists k, In (Some k) (map key rows) /\ out = f (k, rows_of key k rows).
Proof.
  rewrite in_map_iff. split.
  - intros [[k g] [E Hin]]. apply groupby_in in Hin. destruct Hin as [-> Hne].
    exists k. split; [now apply rows_of_nonempty | now symmetry].
  - intros [k [Hk ->]]. exists (k, rows_of key k rows). split; [reflexivity|].
    apply groupby_in. split; [reflexivity | now apply rows_of_nonempty].
Qed.

Variable out_key : O -> string.
Hypothesis out_key_f : forall kg, out_key (f kg) = fst kg.

Lemma aggregated_keys (rows : list R) :
  map out_key (map f (Pd.groupby key rows)) = map fst (Pd.groupby key rows).
Proof. rewrite map_map. apply map_ext. intros kg. apply out_key_f. Qed.

Lemma aggregated_nodup (rows : list R) :
  NoDup (map out_key (map f (Pd.groupby key rows))).
Proof. rewrite aggregated_keys. apply groupby_nodup. Qed.

Lemma aggregated_key_in (rows : list R) (k : string) :
  In k (map out_key (map f (Pd.groupby key rows))) <-> In (Some k) (map key rows).
Proof. rewrite aggregated_keys. apply groupby_keys. Qed.

(** Two output rows of one key are one row. *)
Lemma aggregated_unique (rows : list R) (o1 o2 : O) :
  In o1 (map f (Pd.groupby key rows)) -> In o2 (map f (Pd.groupby key rows)) ->
  out_key o1 = out_key o2 -> o1 = o2.
Proof.
  rewrite !in_aggregated. intros [k1 [_ ->]] [k2 [_ ->]].
  rewrite !out_key_f. simpl. now intros ->.
Qed.

End Aggregation.

(** ** The passenger loader *)

Lemma passengers_nodup (df : list PassengerCsv.row) :
  NoDup (map Passengers.state_code (Passengers.load_airport_passengers df)).
Proof.
  unfold Passengers.load_airport_passengers.
  apply aggregated_nodup. reflexivity.
Qed.

Lemma passengers_states (df : list PassengerCsv.row) (s : string) :
  In s (map Passengers.state_code (Passengers.load_airport_passengers df))
  <-> In (Some s) (map PassengerCsv.state_code df).
Proof.
  unfold Passengers.load_airport_passengers.
  apply aggregated_key_in. reflexivity.
Qed.

(** C8. Every row of the passenger loader's output has nov_passengers and
    dec_passengers equal to the int64 column sums over the input rows of its
    state, and holiday_travel_volume equal to their int64 sum; whenever the
    exact sums fit an int64 these are the exact sums and their exact total. *)
Theorem passenger_volume_is_nov_plus_dec
  (df : list PassengerCsv.row) (out : Passengers.row) :
  In out (Passengers.load_airport_passengers df) ->
  let g := rows_of PassengerCsv.state_code (Passengers.state_code out) df in
  let nov := map PassengerCsv.nov_passengers g in
  let dec := map PassengerCsv.dec_passengers g in
  Passengers.nov_passengers out = Pd.sum64 nov
  /\ Passengers.dec_passengers out = Pd.sum64 dec
  /\ Passengers.holiday_travel_volume out
     = Pd.add64 (Passengers.nov_passengers out) (Passengers.dec_passengers out)
  /\ (in_int64 (zsum nov) -> in_int64 (zsum dec) -> in_int64 (zsum nov + zsum dec) ->
      Passengers.nov_passengers out = zsum nov
      /\ Passengers.dec_passengers out = zsum dec
      /\ Passengers.holiday_travel_volume out
         = Passengers.nov_passengers out + Passengers.dec_passengers out).
Proof.
  unfold Passengers.load_airport_passengers. intros Hin.
  apply in_aggregated in Hin. destruct Hin as [k [_ ->]]. simpl.
  repeat split; try reflexivity.
  - now apply sum64_exact.
  - now apply sum64_exact.
  - unfold Pd.add64. rewrite !sum64_exact by assumption. now apply wrap64_id.
Qed.

Example ca_passengers :
  Passengers.load_airport_passengers ca_markets =
  [ {| Passengers.state_code := "CA"; Passengers.holiday_travel_volume := 425;
       Passengers.nov_passengers := 300; Passengers.dec_passengers := 125 |} ].
Proof. reflexivity. Qed.

(** The two CA markets of the example: nov 300, dec 125, volume 425. *)
Lemma passenger_volume_is_nov_plus_dec_witness :
  let out := {| Passengers.state_code := "CA"; Passengers.holiday_travel_volume := 425;
                Passengers.nov_passengers := 300; Passengers.dec_passengers := 125 |} in
  In out (Passengers.load_airport_passengers ca_markets)
  /\ Passengers.nov_passengers out = 300
  /\ Passengers.dec_passengers out = 125
  /\ Passengers.holiday_travel_volume out
     = Passengers.nov_passengers out + Passengers.dec_passengers out.
Proof.
  intros out.
  assert (Hin : In out (Passengers.load_airport_passengers ca_markets))
    by (left; reflexivity).
  split; [exact Hin|].
  destruct (passenger_volume_is_nov_plus_dec ca_markets out Hin) as (_ & _ & _ & H).
  apply H; unfold in_int64; simpl; lia.
Defined.

(** ** The delay loader *)

Lemma delays_nodup (df : list DelayCsv.row) :
  NoDup (map Delays.state_code (Delays.load_flight_delays df)).
Proof.
  unfold Delays.load_flight_delays. cbv zeta. apply aggregated_nodup. reflexivity.
Qed.

Lemma delays_states (df : list DelayCsv.row) (s : string) :
  In s (map Delays.state_code (Delays.load_flight_delays df))
  <-> In (Some s) (map DelayCsv.state_code df).
Proof.
  unfold Delays.load_flight_delays. cbv zeta. apply aggregated_key_in. reflexivity.
Qed.

(** C1, as stated, fails. Of two TX markets with 100 and 300 flights, the
    second has no delay_pct: the stated quotient over all rows of the state
    has a missing term and is NaN, the average over the markets that have a
    rate is 10, and the loader returns 10 * 100 / (100 + 300) = 2.5. *)
Lemma missing_rate_is_left_out_of_numerator :
  exists out : Delays.row,
    Delays.load_flight_delays missing_rate_markets = [out]
    /\ Delays.state_code out = "TX"
    /\ Delays.avg_delay_pct out = 2.5%float
    /\ Pd.isna (stated_average DelayCsv.delay_pct DelayCsv.total_flights
                  missing_rate_markets) = true
    /\ Delays.avg_delay_pct out
       <> stated_average DelayCsv.delay_pct DelayCsv.total_flights missing_rate_markets
    /\ Delays.avg_delay_pct out <> 10%float.
Proof.
  exists {| Delays.state_code := "TX"; Delays.avg_delay_pct := 2.5;
            Delays.avg_delay_minutes := (3300 / 70)%float;
            Delays.total_flights := 400; Delays.delayed_flights := 70;
            Delays.cancelled_flights := 3 |}.
  split; [reflexivity|]. split; [reflexivity|]. split; [reflexivity|].
  split; [reflexivity|]. cbn [Delays.avg_delay_pct]. split; intros H.
  - assert (F : Pd.isna 2.5 = true) by (rewrite H; reflexivity). discriminate F.
  - assert (F : (2.5 =? 10)%float = true) by (rewrite H; reflexivity). discriminate F.
Qed.

(** C1, amended. For each distinct state_code of the delay CSV the loader
    produces exactly one row. Its avg_delay_pct is
    sum(delay_pct * total_flights) / sum(total_flights), where the numerator
    is the pandas group sum (int64 with wrap-around when every delay_pct of
    the file is written as an integer, compensated float64 otherwise) over
    the rows of the state whose delay_pct is present, and the denominator
    the int64 sum over all rows of the state; with every row of the state in
    the numerator the result is the same, the group sum skipping what is
    missing. Likewise avg_delay_minutes with delayed_flights. *)
Theorem delay_averages_are_flight_weighted (df : list DelayCsv.row) (s : string) :
  In (Some s) (map DelayCsv.state_code df) ->
  let g := rows_of DelayCsv.state_code s df in
  let int_rates := Pd.int64_column (map DelayCsv.delay_pct df) in
  let int_minutes := Pd.int64_column (map DelayCsv.avg_delay_minutes df) in
  let rated := filter (fun r => Pd.notna (DelayCsv.delay_pct r)) g in
  let timed := filter (fun r => Pd.notna (DelayCsv.avg_delay_minutes r)) g in
  exists out : Delays.row,
    In out (Delays.load_flight_delays df)
    /\ Delays.state_code out = s
    /\ Delays.avg_delay_pct out
       = weighted_average int_rates DelayCsv.delay_pct DelayCsv.total_flights rated g
    /\ Delays.avg_delay_pct out
       = weighted_average int_rates DelayCsv.delay_pct DelayCsv.total_flights g g
    /\ Delays.avg_delay_minutes out
       = weighted_average int_minutes DelayCsv.avg_delay_minutes
           DelayCsv.delayed_flights timed g
    /\ Delays.avg_delay_minutes out
       = weighted_average int_minutes DelayCsv.avg_delay_minutes
           DelayCsv.delayed_flights g g
    /\ forall out', In out' (Delays.load_flight_delays df) ->
                    Delays.state_code out' = s -> out' = out.
Proof.
  intros Hs g int_rates int_minutes rated timed.
  pose (f := fun kg : string * list DelayCsv.row =>
     let total := Pd.sum64 (map DelayCsv.total_flights (snd kg)) in
     let delayed := Pd.sum64 (map DelayCsv.delayed_flights (snd kg)) in
     let cancelled := Pd.sum64 (map DelayCsv.cancelled_flights (snd kg)) in
     let wdelay :=
       Pd.column_sum int_rates (map (Delays.weighted_delay int_rates) (snd kg)) in
     let wminutes :=
       Pd.column_sum int_minutes (map (Delays.weighted_minutes int_minutes) (snd kg)) in
     {| Delays.state_code := fst kg;
        Delays.avg_delay_pct := Pd.true_divide wdelay total;
        Delays.avg_delay_minutes := Pd.true_divide wminutes delayed;
        Delays.total_flights := total;
        Delays.delayed_flights := delayed;
        Delays.cancelled_flights := cancelled |}).
  assert (Hout : In (f (s, g)) (Delays.load_flight_delays df)).
  { unfold Delays.load_flight_delays. cbv zeta. apply in_aggregated.
    exists s. now split. }
  exists (f (s, g)). split; [exact Hout|]. split; [reflexivity|].
  split; [|split; [reflexivity|split; [|split; [reflexivity|]]]].
  - symmetry. apply weighted_average_skips_missing.
  - symmetry. apply weighted_average_skips_missing.
  - intros out' Hin' Hk.
    eapply (aggregated_unique DelayCsv.state_code f Delays.state_code);
      [reflexivity | exact Hin' | exact Hout | exact Hk].
Qed.

Example tx_delays :
  Delays.load_flight_delays tx_markets =
  [ {| Delays.state_code := "TX"; Delays.avg_delay_pct := 17.5;
       Delays.avg_delay_minutes := (3300 / 70)%float;
       Delays.total_flights := 400; Delays.delayed_flights := 70;
       Delays.cancelled_flights := 3 |} ].
Proof. reflexivity. Qed.

(** The same markets read from integer-written columns. *)
Example integer_delays :
  Delays.load_flight_delays integer_markets = Delays.load_flight_delays tx_markets.
Proof. reflexivity. Qed.

(** The two TX markets of the example: (10 * 100 + 20 * 300) / (100 + 300)
    is 17.5, not the unweighted mean 15. *)
Lemma delay_averages_are_flight_weighted_witness :
  exists out : Delays.row,
    In out (Delays.load_flight_delays tx_markets)
    /\ Delays.state_code out = "TX"
    /\ Delays.avg_delay_pct out = 17.5%float
    /\ Delays.avg_delay_pct out <> 15%float.
Proof.
  assert (Hs : In (Some "TX") (map DelayCsv.state_code tx_markets))
    by (left; reflexivity).
  destruct (delay_averages_are_flight_weighted tx_markets "TX" Hs)
    as (out & Hin & Hk & Hpct & _).
  exists out. split; [exact Hin|]. split; [exact Hk|].
  assert (E : Delays.avg_delay_pct out = 17.5%float) by (rewrite Hpct; reflexivity).
  split; [exact E|]. rewrite E. intros H.
  assert (F : (17.5 =? 15)%float = true) by (rewrite H; reflexivity).
  discriminate F.
Defined.
(** *** A zero denominator *)

(** The IEEE quotient by zero is never a finite number. *)
Lemma div_by_zero (x : float) :
  PrimFloat.is_nan (x / 0) = true \/ PrimFloat.is_infinity (x / 0) = true.
Proof.
  unfold PrimFloat.is_nan, PrimFloat.is_infinity.
  rewrite !FloatAxioms.eqb_spec, FloatAxioms.abs_spec, FloatAxioms.div_spec.
  change (Prim2SF 0) with (S754_zero false).
  change (Prim2SF infinity) with (S754_infinity false).
  destruct (Prim2SF x) as [s|s| |s m e]; simpl; auto.
Qed.

(** C3, as stated, fails: a state whose markets report no flight gets NaN
    for both averages, not 0 or any other default. *)
Lemma zero_flights_give_nan :
  exists out : Delays.row,
    Delays.load_flight_delays idle_markets = [out]
    /\ Delays.state_code out = "WY"
    /\ Delays.total_flights out = 0
    /\ Delays.delayed_flights out = 0
    /\ Pd.isna (Delays.avg_delay_pct out) = true
    /\ Pd.isna (Delays.avg_delay_minutes out) = true
    /\ Delays.avg_delay_pct out <> 0%float.
Proof.
  eexists. split; [reflexivity|]. repeat split.
  simpl. intros H.
  assert (F : Pd.isna 0 = true) by (rewrite <- H; reflexivity).
  discriminate F.
Qed.

Example cancelling_flights_give_infinity :
  map Delays.avg_delay_pct (Delays.load_flight_delays cancelling_markets)
  = [neg_infinity].
Proof. reflexivity. Qed.

(** C3, amended. The delay loader is a total function (it returns a table
    for every input), and for a state whose sum(total_flights) is 0 the
    avg_delay_pct it returns is the unguarded quotient by zero: NaN or an
    infinity, never a finite default; likewise avg_delay_minutes when
    sum(delayed_flights) is 0. *)
Theorem zero_denominator_is_not_defaulted (df : list DelayCsv.row) (out : Delays.row) :
  In out (Delays.load_flight_delays df) ->
  (Delays.total_flights out = 0 ->
   Pd.isna (Delays.avg_delay_pct out) = true
   \/ PrimFloat.is_infinity (Delays.avg_delay_pct out) = true)
  /\ (Delays.delayed_flights out = 0 ->
      Pd.isna (Delays.avg_delay_minutes out) = true
      \/ PrimFloat.is_infinity (Delays.avg_delay_minutes out) = true).
Proof.
  unfold Delays.load_flight_delays. cbv zeta. intros Hin.
  apply in_aggregated in Hin. destruct Hin as [k [_ ->]].
  cbn [Delays.total_flights Delays.delayed_flights Delays.avg_delay_pct
       Delays.avg_delay_minutes]. unfold Pd.true_divide.
  split; intros ->; apply div_by_zero.
Qed.

Lemma zero_denominator_is_not_defaulted_witness :
  let out := {| Delays.state_code := "WY"; Delays.avg_delay_pct := nan;
                Delays.avg_delay_minutes := nan; Delays.total_flights := 0;
                Delays.delayed_flights := 0; Delays.cancelled_flights := 0 |} in
  In out (Delays.load_flight_delays idle_markets)
  /\ (Pd.isna (Delays.avg_delay_pct out) = true
      \/ PrimFloat.is_infinity (Delays.avg_delay_pct out) = true)
  /\ (Pd.isna (Delays.avg_delay_minutes out) = true
      \/ PrimFloat.is_infinity (Delays.avg_delay_minutes out) = true).
Proof.
  intros out.
  assert (Hin : In out (Delays.load_flight_delays idle_markets)) by (left; reflexivity).
  split; [exact Hin|].
  destruct (zero_denominator_is_not_defaulted idle_markets out Hin) as [H1 H2].
  split; [apply H1 | apply H2]; reflexivity.
Defined.

(** ** Reading the temperature file *)

Lemma get_none_iff (s : string) :
  forall n, get n s = None <-> (String.length s <= n)%nat.
Proof.
  induction s as [|c s IH]; intros [|n]; simpl.
  - split; [lia | reflexivity].
  - split; [lia | reflexivity].
  - split; [discriminate | lia].
  - rewrite IH. lia.
Qed.

Lemma substring_length (s : string) :
  forall n m, (n + m <= String.length s)%nat -> String.length (substring n m s) = m.
Proof.
  induction s as [|c s IH]; intros [|n] [|m]; simpl; intros H;
    try reflexivity; try lia.
  - f_equal. apply (IH 0%nat). lia.
  - apply (IH n 0%nat). lia.
  - apply (IH n (S m)). lia.
Qed.

Section ReadingFacts.
Variable py_float : string -> option float.

Lemma traverse_float_raise (xs : list string) (e : Py.exn) :
  Py.traverse (fun x => Py.of_option Py.ValueError (py_float x)) xs = Py.Raise e ->
  e = Py.ValueError.
Proof.
  induction xs as [|x xs IH]; simpl; [discriminate|].
  destruct (py_float x); simpl; [|congruence].
  destruct (Py.traverse _ xs); simpl; [discriminate|].
  intros [= <-]. now apply IH.
Qed.

Lemma int_raise (s : string) (e : Py.exn) : Py.int s = Py.Raise e -> e = Py.ValueError.
Proof.
  unfold Py.int, Py.of_option.
  destruct (match s with EmptyString => _ | String _ _ => _ end); congruence.
Qed.

(** A line of fewer than 13 tokens is skipped, whatever it holds. *)
Lemma parse_line_short (line : string) :
  (List.length (Py.split line) < 13)%nat ->
  Temperature.parse_line py_float line = Py.Ok None.
Proof.
  intros H. unfold Temperature.parse_line.
  destruct (Nat.leb_spec 13 (List.length (Py.split line))); [lia | reflexivity].
Qed.

(** The only index that can be out of range is [code[5]]. *)
Lemma parse_line_index_error (line : string) :
  Temperature.parse_line py_float line = Py.Raise Py.IndexError
  <-> (13 <= List.length (Py.split line))%nat
      /\ (String.length (hd "" (Py.split line)) < 6)%nat.
Proof.
  unfold Temperature.parse_line.
  destruct (Nat.leb_spec 13 (List.length (Py.split line))) as [Hn|Hn].
  - unfold Py.index, Py.of_option.
    destruct (get 5 (hd "" (Py.split line))) as [c|] eqn:Eg; simpl.
    + assert (Hlen : ~ (String.length (hd "" (Py.split line)) <= 5)%nat).
      { rewrite <- get_none_iff. congruence. }
      split; [|intros [_ H]; lia].
      destruct (Py.int _) as [y|e] eqn:Ey; simpl.
      * destruct (Py.traverse _ _) as [ts|e] eqn:Et; simpl; [discriminate|].
        apply traverse_float_raise in Et. congruence.
      * apply int_raise in Ey. congruence.
    + apply get_none_iff in Eg. split; [intros _; split; lia | reflexivity].
  - split; [discriminate | intros [H _]; lia].
Qed.

(** An accepted line has a code of at least 6 characters, so its FIPS field
    has exactly 3. *)
Lemma parse_line_fips (line : string) (r : Temperature.raw_row) :
  Temperature.parse_line py_float line = Py.Ok (Some r) ->
  String.length (Temperature.state_fips r) = 3%nat.
Proof.
  unfold Temperature.parse_line.
  destruct (13 <=? List.length (Py.split line))%nat; [|discriminate].
  unfold Py.index, Py.of_option.
  destruct (get 5 (hd "" (Py.split line))) as [c|] eqn:Eg; simpl; [|discriminate].
  assert (Hlen : ~ (String.length (hd "" (Py.split line)) <= 5)%nat).
  { rewrite <- get_none_iff. congruence. }
  destruct (Py.int _) as [y|e]; simpl; [|discriminate].
  destruct (Py.traverse _ _) as [ts|e]; simpl; [|discriminate].
  intros [= <-]. simpl. unfold Py.slice. apply substring_length. lia.
Qed.

Lemma read_rows_ok (lines : list string) :
  forall acc df,
    Temperature.read_rows py_float acc lines = Py.Ok df ->
    exists rows,
      df = (acc ++ rows)%list
      /\ Forall (fun r => exists line, In line lines
                   /\ Temperature.parse_line py_float line = Py.Ok (Some r)) rows.
Proof.
  induction lines as [|line lines IH]; simpl; intros acc df H.
  - injection H as <-. exists []. split; [now rewrite app_nil_r | constructor].
  - destruct (Temperature.parse_line py_float line) as [[r|]|e] eqn:Ep; simpl in H;
      [| |discriminate].
    + apply IH in H. destruct H as [rows [-> Hall]].
      exists (r :: rows). split; [now rewrite <- app_assoc|].
      constructor; [exists line; split; [now left | exact Ep]|].
      eapply Forall_impl; [|exact Hall]. intros x [l [Hl Hx]].
      exists l. split; [now right | exact Hx].
    + apply IH in H. destruct H as [rows [-> Hall]].
      exists rows. split; [reflexivity|].
      eapply Forall_impl; [|exact Hall]. intros x [l [Hl Hx]].
      exists l. split; [now right | exact Hx].
Qed.

Lemma read_rows_raise (lines : list string) :
  forall acc e,
    Temperature.read_rows py_float acc lines = Py.Raise e ->
    exists line, In line lines /\ Temperature.parse_line py_float line = Py.Raise e.
Proof.
  induction lines as [|line lines IH]; simpl; intros acc e H; [discriminate|].
  destruct (Temperature.parse_line py_float line) as [o|e'] eqn:Ep; simpl in H.
  - apply IH in H. destruct H as [l [Hl Hx]]. exists l. split; [now right | exact Hx].
  - injection H as ->. exists line. split; [now left | exact Ep].
Qed.

Lemma read_rows_all_short (lines : list string) :
  forall acc,
    (forall line, In line lines -> (List.length (Py.split line) < 13)%nat) ->
    Temperature.read_rows py_float acc lines = Py.Ok acc.
Proof.
  induction lines as [|line lines IH]; simpl; intros acc H; [reflexivity|].
  rewrite parse_line_short by (apply H; now left). simpl.
  apply IH. intros l Hl. apply H. now right.
Qed.

Lemma read_rows_fips (lines : list string) (df : list Temperature.raw_row) :
  Temperature.read_rows py_float [] lines = Py.Ok df ->
  Forall (fun r => String.length (Temperature.state_fips r) = 3%nat) df.
Proof.
  intros H. apply read_rows_ok in H. destruct H as [rows [-> Hall]]. simpl.
  eapply Forall_impl; [|exact Hall]. intros r [line [_ Hp]].
  eapply parse_line_fips; exact Hp.
Qed.

End ReadingFacts.

Example parse_sample_line :
  Temperature.parse_line sample_float (temperature_line "0010022020" "50" "40")
  = Py.Ok (Some {| Temperature.code := "0010022020"; Temperature.state_fips := "001";
                   Temperature.division := "00"; Temperature.year := 2020;
                   Temperature.temps := [1; 2; 3; 4; 5; 6; 7; 8; 9; 10; 50; 40]%float |}).
Proof. reflexivity. Qed.

Example parse_bad_number :
  Temperature.parse_line sample_float (temperature_line "0010022020" "n/a" "40")
  = Py.Raise Py.ValueError
  /\ Temperature.parse_line sample_float (temperature_line "00100220xx" "50" "40")
     = Py.Raise Py.ValueError.
Proof. split; reflexivity. Qed.

(** A file none of whose lines is accepted: the frame has no column. *)
Lemma load_all_short (py_float : string -> option float) (lines : list string) :
  (forall line, In line lines -> (List.length (Py.split line) < 13)%nat) ->
  Temperature.load_noaa_temperature_data py_float lines = Py.Raise Py.KeyError.
Proof.
  intros H. unfold Temperature.load_noaa_temperature_data.
  now rewrite read_rows_all_short.
Qed.

(** C10. There is a temperature file, none of whose lines splits into 13
    tokens or more, on which the loader raises (KeyError, from the selection
    of a column of the empty frame) instead of returning a table. *)
Theorem empty_frame_raises :
  exists lines : list string,
    forallb (fun line => (List.length (Py.split line) <? 13)%nat) lines = true
    /\ forall py_float,
         Temperature.load_noaa_temperature_data py_float lines = Py.Raise Py.KeyError.
Proof.
  exists comment_lines. split; [reflexivity|].
  intros py_float. apply load_all_short.
  intros line Hin. simpl in Hin.
  destruct Hin as [<-|[<-|[<-|[]]]]; vm_compute; lia.
Qed.

(** C5, as stated, fails: a line of 13 tokens whose first token is shorter
    than 6 characters raises IndexError at [code[5]]. *)
Lemma short_code_raises_index_error :
  (List.length (Py.split short_code_line) >= 13)%nat
  /\ (String.length (hd "" (Py.split short_code_line)) < 10)%nat
  /\ Temperature.parse_line sample_float short_code_line = Py.Raise Py.IndexError
  /\ Temperature.load_noaa_temperature_data sample_float
       (alabama_lines ++ [short_code_line]) = Py.Raise Py.IndexError.
Proof. repeat split; vm_compute; lia || reflexivity. Qed.

(** C5, amended. Every line that splits into fewer than 13 tokens is skipped
    silently; a line of 13 tokens or more raises IndexError exactly when its
    first token has fewer than 6 characters (the slices are clamped, the
    single index [code[5]] is not); and the loader raises IndexError only on a
    file that has such a line. *)
Theorem index_error_only_from_short_code
  (py_float : string -> option float) (lines : list string) :
  Forall (fun line =>
            ((List.length (Py.split line) < 13)%nat ->
             Temperature.parse_line py_float line = Py.Ok None)
            /\ (Temperature.parse_line py_float line = Py.Raise Py.IndexError
                <-> (13 <= List.length (Py.split line))%nat
                    /\ (String.length (hd "" (Py.split line)) < 6)%nat)) lines
  /\ (Temperature.load_noaa_temperature_data py_float lines = Py.Raise Py.IndexError ->
      exists line, In line lines
                   /\ (13 <= List.length (Py.split line))%nat
                   /\ (String.length (hd "" (Py.split line)) < 6)%nat).
Proof.
  split.
  - apply Forall_forall. intros line _. split.
    + apply parse_line_short.
    + apply parse_line_index_error.
  - unfold Temperature.load_noaa_temperature_data.
    destruct (Temperature.read_rows py_float [] lines) as [df|e] eqn:E; simpl.
    + destruct df; discriminate.
    + intros [= ->]. apply read_rows_raise in E. destruct E as [line [Hin Hp]].
      exists line. split; [exact Hin|]. eapply parse_line_index_error; exact Hp.
Qed.

Lemma index_error_only_from_short_code_witness :
  Temperature.parse_line sample_float "0010022020 45.5 50.5" = Py.Ok None
  /\ exists line, In line [ "0010022020 45.5 50.5"; short_code_line ]
                  /\ (String.length (hd "" (Py.split line)) < 6)%nat.
Proof.
  destruct (index_error_only_from_short_code sample_float
              [ "0010022020 45.5 50.5"; short_code_line ]) as [Hall Hload].
  split.
  - inversion Hall as [|? ? [Hskip _] _]; subst.
    apply Hskip. vm_compute. lia.
  - destruct (Hload eq_refl) as [line [Hin [_ Hlen]]].
    exists line. split; assumption.
Defined.

(** ** Resolving a FIPS code *)

Lemma lstrip0_cons (c : ascii) (s : string) :
  Py.lstrip0 (String c s) = if (c =? "0")%char then Py.lstrip0 s else String c s.
Proof.
  destruct c as [[] [] [] [] [] [] [] []]; reflexivity.
Qed.

Lemma dict_get_in {V : Type} (d : list (string * V)) (x : string) (v : V) :
  dict_get d x = Some v -> In (x, v) d.
Proof.
  induction d as [|[k w] d IH]; simpl; [discriminate|].
  destruct (k =? x)%string eqn:E.
  - apply String.eqb_eq in E. subst k. intros [= <-]. now left.
  - intros H. right. now apply IH.
Qed.

Lemma state_fips_key_length (x : string) (v : string * string) :
  dict_get STATE_FIPS x = Some v -> String.length x = 2%nat.
Proof.
  intros H. apply dict_get_in in H.
  apply (in_map fst) in H. simpl in H.
  repeat (destruct H as [<-|H]; [reflexivity|]). destruct H.
Qed.

(** A 3-character FIPS that resolves is its 2-digit key behind one zero. *)
Lemma resolved_fips (f : string) (v : string * string) :
  String.length f = 3%nat ->
  dict_get STATE_FIPS (Temperature.state_fips_2 f) = Some v ->
  f = String "0" (Temperature.state_fips_2 f).
Proof.
  destruct f as [|a [|b [|c [|d f]]]]; try discriminate. intros _.
  unfold Temperature.state_fips_2. rewrite lstrip0_cons.
  destruct (Ascii.eqb_spec a "0") as [->|Ha].
  - rewrite lstrip0_cons. destruct (Ascii.eqb_spec b "0") as [->|Hb].
    + rewrite lstrip0_cons. destruct (Ascii.eqb_spec c "0") as [->|Hc].
      * simpl. discriminate.
      * simpl.
        destruct (Ascii.eqb_spec c "+") as [->|Hp]; [simpl; discriminate|].
        destruct (Ascii.eqb_spec c "-") as [->|Hm]; [simpl; discriminate|].
        reflexivity.
    + reflexivity.
  - intros H. apply state_fips_key_length in H. discriminate H.
Qed.

Lemma distinct_nodup (xs : list string) : distinct xs = true -> NoDup xs.
Proof.
  induction xs as [|x xs IH]; simpl; intros H; [constructor|].
  apply andb_true_iff in H. destruct H as [H1 H2].
  constructor; [|now apply IH].
  intros Hin. apply negb_true_iff in H1.
  assert (E : existsb (String.eqb x) xs = true).
  { apply existsb_exists. exists x. split; [exact Hin | apply String.eqb_refl]. }
  congruence.
Qed.

(** No two entries of the table share a state code. *)
Lemma state_codes_distinct : NoDup (map (fun e => fst (snd e)) STATE_FIPS).
Proof. apply distinct_nodup. reflexivity. Qed.

Lemma nodup_map_injective {A B : Type} (f : A -> B) (l : list A) (a b : A) :
  NoDup (map f l) -> In a l -> In b l -> f a = f b -> a = b.
Proof.
  induction l as [|x l IH]; simpl; intros Hnd Ha Hb E; [destruct Ha|].
  inversion Hnd as [|? ? Hx Hl]; subst.
  destruct Ha as [->|Ha], Hb as [->|Hb].
  - reflexivity.
  - destruct Hx. rewrite E. now apply in_map.
  - destruct Hx. rewrite <- E. now apply in_map.
  - now apply IH.
Qed.

Lemma resolve_some (m : Temperature.state_mean) (r : Temperature.row) :
  Temperature.resolve m = Some r ->
  dict_get STATE_FIPS (Temperature.state_fips_2 (Temperature.mean_fips m))
  = Some (Temperature.state_code r, Temperature.state_name r)
  /\ Temperature.avg_dec_temperature r = Temperature.mean_dec m
  /\ Temperature.avg_nov_temperature r = Temperature.mean_nov m.
Proof.
  unfold Temperature.resolve.
  destruct (dict_get STATE_FIPS _) as [[c n]|]; [|discriminate].
  intros [= <-]. simpl. auto.
Qed.

(** Two 3-character FIPS codes that resolve to one state code are equal. *)
Lemma resolve_injective (m1 m2 : Temperature.state_mean) (r1 r2 : Temperature.row) :
  String.length (Temperature.mean_fips m1) = 3%nat ->
  String.length (Temperature.mean_fips m2) = 3%nat ->
  Temperature.resolve m1 = Some r1 -> Temperature.resolve m2 = Some r2 ->
  Temperature.state_code r1 = Temperature.state_code r2 ->
  Temperature.mean_fips m1 = Temperature.mean_fips m2.
Proof.
  intros L1 L2 H1 H2 E.
  apply resolve_some in H1, H2. destruct H1 as [H1 _], H2 as [H2 _].
  rewrite (resolved_fips _ _ L1 H1), (resolved_fips _ _ L2 H2). f_equal.
  apply dict_get_in in H1, H2.
  assert (P := nodup_map_injective (fun e : string * (string * string) => fst (snd e))
                 STATE_FIPS _ _ state_codes_distinct H1 H2 E).
  congruence.
Qed.

Lemma in_map_dropna {A B : Type} (f : A -> option B) (l : list A) (b : B) :
  In b (map_dropna f l) <-> exists a, In a l /\ f a = Some b.
Proof.
  induction l as [|x l IH]; simpl.
  - split; [tauto | intros [a [[] _]]].
  - destruct (f x) as [y|] eqn:E; simpl; rewrite IH; split.
    + intros [<-|[a [Ha Hf]]]; [exists x; auto | exists a; auto].
    + intros [a [[<-|Ha] Hf]]; [left; congruence | right; exists a; auto].
    + intros [a [Ha Hf]]. exists a; auto.
    + intros [a [[<-|Ha] Hf]]; [congruence | exists a; auto].
Qed.

Lemma map_dropna_nodup {A B : Type} (f : A -> option B)
  (ka : A -> string) (kb : B -> string) (l : list A) :
  NoDup (map ka l) ->
  (forall a1 a2 b1 b2, In a1 l -> In a2 l -> f a1 = Some b1 -> f a2 = Some b2 ->
                       kb b1 = kb b2 -> ka a1 = ka a2) ->
  NoDup (map kb (map_dropna f l)).
Proof.
  induction l as [|x l IH]; simpl; intros Hnd Hinj; [constructor|].
  inversion Hnd as [|? ? Hx Hl]; subst.
  assert (IH' : NoDup (map kb (map_dropna f l))).
  { apply IH; [exact Hl|]. intros a1 a2 b1 b2 H1 H2. apply Hinj; now right. }
  destruct (f x) as [y|] eqn:E; [|exact IH'].
  simpl. constructor; [|exact IH'].
  intros Hin. apply in_map_iff in Hin. destruct Hin as [b [Eb Hb]].
  apply in_map_dropna in Hb. destruct Hb as [a [Ha Hf]].
  apply Hx. rewrite <- (Hinj a x b y); auto. now apply in_map.
Qed.

(** ** The selection, the means and the Hawaii step *)

Lemma select_in (d : string) (df : list Temperature.raw_row) (r : Temperature.raw_row) :
  In r (Temperature.select d df)
  <-> In r df /\ Temperature.division r = d /\ Temperature.in_years r = true.
Proof.
  unfold Temperature.select. rewrite filter_In, andb_true_iff, String.eqb_eq. tauto.
Qed.

Lemma rows_of_select (f d : string) (df : list Temperature.raw_row) :
  rows_of fips_key f (Temperature.select d df) = matching_rows f d df.
Proof.
  unfold rows_of, Temperature.select, matching_rows, has_key, fips_key.
  induction df as [|r df IH]; simpl; [reflexivity|].
  destruct (Temperature.division r =? d)%string, (Temperature.in_years r); simpl;
    rewrite ?andb_false_r; simpl; try exact IH.
  rewrite andb_true_r. destruct (Temperature.state_fips r =? f)%string; now rewrite IH.
Qed.

Lemma filter_nil_existsb {A : Type} (p : A -> bool) (l : list A) :
  (List.length (filter p l) =? 0)%nat = negb (existsb p l).
Proof.
  induction l as [|x l IH]; simpl; [reflexivity|].
  destruct (p x); simpl; [reflexivity | exact IH].
Qed.

Lemma statewide_rows_cases (df : list Temperature.raw_row) :
  Temperature.statewide_rows df
  = if fallback_active df then Temperature.select "01" df else Temperature.select "00" df.
Proof.
  unfold Temperature.statewide_rows, fallback_active.
  unfold Temperature.select at 1. now rewrite filter_nil_existsb.
Qed.

Lemma fallback_active_iff (df : list Temperature.raw_row) :
  fallback_active df = true <-> Temperature.select "00" df = [].
Proof.
  unfold fallback_active, Temperature.select.
  rewrite <- filter_nil_existsb, Nat.eqb_eq. apply length_zero_iff_nil.
Qed.

Lemma statewide_rows_incl (df : list Temperature.raw_row) (r : Temperature.raw_row) :
  In r (Temperature.statewide_rows df) -> In r df.
Proof.
  rewrite statewide_rows_cases.
  destruct (fallback_active df); intros H; apply select_in in H; tauto.
Qed.

Lemma aggregate_in (sw : list Temperature.raw_row) (m : Temperature.state_mean) :
  In m (Temperature.aggregate sw) <->
  exists f, rows_of fips_key f sw <> []
            /\ m = {| Temperature.mean_fips := f;
                      Temperature.mean_dec := Pd.fmean (map Temperature.dec (rows_of fips_key f sw));
                      Temperature.mean_nov := Pd.fmean (map Temperature.nov (rows_of fips_key f sw)) |}.
Proof.
  unfold Temperature.aggregate.
  change (fun r => Some (Temperature.state_fips r)) with fips_key.
  rewrite in_aggregated. split; intros [f [H ->]]; exists f; split;
    try reflexivity; now apply rows_of_nonempty.
Qed.

Lemma aggregate_nodup (sw : list Temperature.raw_row) :
  NoDup (map Temperature.mean_fips (Temperature.aggregate sw)).
Proof. unfold Temperature.aggregate. apply aggregated_nodup. reflexivity. Qed.

Lemma aggregate_fips (sw : list Temperature.raw_row) (m : Temperature.state_mean) :
  In m (Temperature.aggregate sw) ->
  exists r, In r sw /\ Temperature.state_fips r = Temperature.mean_fips m.
Proof.
  intros H. apply aggregate_in in H. destruct H as [f [Hne ->]]. simpl.
  apply rows_of_nonempty in Hne. apply in_map_iff in Hne.
  destruct Hne as [r [E Hin]]. injection E as E. exists r. now split.
Qed.

Lemma resolved_means_in (df : list Temperature.raw_row) (r : Temperature.row) :
  In r (resolved_means df) <->
  exists f, let g := rows_of fips_key f (Temperature.statewide_rows df) in
    g <> []
    /\ dict_get STATE_FIPS (Temperature.state_fips_2 f)
       = Some (Temperature.state_code r, Temperature.state_name r)
    /\ r = mean_row (Temperature.state_code r) (Temperature.state_name r) g.
Proof.
  unfold resolved_means. rewrite in_map_dropna. split.
  - intros [m [Hm Hr]]. apply aggregate_in in Hm. destruct Hm as [f [Hne ->]].
    exists f. simpl. split; [exact Hne|].
    apply resolve_some in Hr. simpl in Hr. destruct Hr as (H1 & H2 & H3).
    split; [exact H1|]. destruct r; simpl in *. unfold mean_row. congruence.
  - intros [f (Hne & Hd & Hr)]. eexists. split.
    + apply aggregate_in. exists f. split; [exact Hne | reflexivity].
    + unfold Temperature.resolve.
      cbn [Temperature.mean_fips Temperature.mean_dec Temperature.mean_nov].
      rewrite Hd. f_equal. symmetry. exact Hr.
Qed.

(** The state codes of the resolved table are pairwise distinct when every
    FIPS field has 3 characters. *)
Lemma resolved_means_nodup (df : list Temperature.raw_row) :
  Forall (fun r => String.length (Temperature.state_fips r) = 3%nat) df ->
  NoDup (map Temperature.state_code (resolved_means df)).
Proof.
  intros Hlen. unfold resolved_means.
  assert (L : forall m, In m (Temperature.aggregate (Temperature.statewide_rows df)) ->
                        String.length (Temperature.mean_fips m) = 3%nat).
  { intros m Hm. apply aggregate_fips in Hm. destruct Hm as [r [Hr <-]].
    rewrite Forall_forall in Hlen. apply Hlen. now apply statewide_rows_incl. }
  apply (map_dropna_nodup _ Temperature.mean_fips); [apply aggregate_nodup|].
  intros a1 a2 b1 b2 H1 H2 F1 F2 E.
  eapply resolve_injective; eauto.
Qed.

Lemma existsb_eqb_in (x : string) (l : list string) :
  existsb (String.eqb x) l = true <-> In x l.
Proof.
  rewrite existsb_exists. split.
  - intros [y [Hin E]]. apply String.eqb_eq in E. now subst.
  - intros H. exists x. split; [exact H | apply String.eqb_refl].
Qed.

Lemma add_hawaii_cases (l : list Temperature.row) :
  (In "HI" (map Temperature.state_code l) /\ Temperature.add_hawaii l = l)
  \/ (~ In "HI" (map Temperature.state_code l)
      /\ Temperature.add_hawaii l = (l ++ [Temperature.hawaii_row])%list).
Proof.
  unfold Temperature.add_hawaii.
  destruct (existsb (String.eqb "HI") (map Temperature.state_code l)) eqn:E.
  - left. split; [now apply existsb_eqb_in | reflexivity].
  - right. split; [|reflexivity]. rewrite <- existsb_eqb_in. congruence.
Qed.

Lemma add_hawaii_nodup (l : list Temperature.row) :
  NoDup (map Temperature.state_code l) ->
  NoDup (map Temperature.state_code (Temperature.add_hawaii l)).
Proof.
  intros H. destruct (add_hawaii_cases l) as [[_ ->]|[Hn ->]]; [exact H|].
  rewrite map_app. simpl. apply NoDup_app; [exact H | repeat constructor; simpl; tauto |].
  intros x Hx [<-|[]]. exact (Hn Hx).
Qed.

Section LoaderFacts.
Variable py_float : string -> option float.

Lemma load_ok (lines : list string) (T : list Temperature.row) :
  Temperature.load_noaa_temperature_data py_float lines = Py.Ok T <->
  exists df, Temperature.read_rows py_float [] lines = Py.Ok df
             /\ df <> [] /\ T = Temperature.add_hawaii (resolved_means df).
Proof.
  unfold Temperature.load_noaa_temperature_data, resolved_means.
  destruct (Temperature.read_rows py_float [] lines) as [df|e]; simpl.
  - destruct df as [|r df].
    + split; [discriminate | intros [df [[= <-] [H _]]]; congruence].
    + split.
      * intros [= <-]. eexists. split; [reflexivity|]. split; [discriminate | reflexivity].
      * intros [df' [[= <-] [_ ->]]]. reflexivity.
  - split; [discriminate | intros [df [H _]]; discriminate].
Qed.

(** The loader's table has no repeated state code. *)
Lemma load_nodup (lines : list string) (T : list Temperature.row) :
  Temperature.load_noaa_temperature_data py_float lines = Py.Ok T ->
  NoDup (map Temperature.state_code T).
Proof.
  intros H. apply load_ok in H. destruct H as [df (Hr & _ & ->)].
  apply add_hawaii_nodup, resolved_means_nodup.
  eapply read_rows_fips; exact Hr.
Qed.

End LoaderFacts.

Lemma add_hawaii_incl (l : list Temperature.row) (r : Temperature.row) :
  In r l -> In r (Temperature.add_hawaii l).
Proof.
  intros H. destruct (add_hawaii_cases l) as [[_ ->]|[_ ->]]; [exact H|].
  apply in_or_app. now left.
Qed.

Lemma hawaii_key (k n : string) :
  dict_get STATE_FIPS k = Some ("HI", n) -> k = "51".
Proof.
  intros H. apply dict_get_in in H.
  assert (H51 : In ("51", ("HI", "Hawaii")) STATE_FIPS)
    by (apply (dict_get_in STATE_FIPS "51"); reflexivity).
  assert (P := nodup_map_injective (fun e : string * (string * string) => fst (snd e))
                 STATE_FIPS _ _ state_codes_distinct H H51 eq_refl).
  congruence.
Qed.

Section TemperatureTheorems.
Variable py_float : string -> option float.

(** C4. The fallback to division 01 is taken exactly when no row of the
    whole file has division 00 within the window; the rows averaged are then
    the division 01 rows of the same window, for every state at once, and
    otherwise the division 00 rows alone, so that a state without one has no
    mean even if it has division 01 rows. *)
Theorem fallback_iff_no_statewide_row
  (lines : list string) (df : list Temperature.raw_row) :
  Temperature.read_rows py_float [] lines = Py.Ok df -> df <> [] ->
  let used := if fallback_active df then "01" else "00" in
  (fallback_active df = true
   <-> forall r, In r df -> Temperature.division r = "00" ->
                 Temperature.in_years r = false)
  /\ Temperature.load_noaa_temperature_data py_float lines
     = Py.Ok (Temperature.add_hawaii
                (map_dropna Temperature.resolve
                   (Temperature.aggregate (Temperature.select used df))))
  /\ (forall r, In r (Temperature.select used df)
                <-> In r df /\ Temperature.division r = used
                    /\ Temperature.in_years r = true)
  /\ (fallback_active df = false ->
      forall f, matching_rows f "00" df = [] ->
                ~ In f (map Temperature.mean_fips
                          (Temperature.aggregate (Temperature.select used df)))).
Proof.
  intros Hr Hne used.
  assert (Hsw : Temperature.statewide_rows df = Temperature.select used df).
  { rewrite statewide_rows_cases. unfold used. now destruct (fallback_active df). }
  split; [split|split; [|split]].
  - intros Hf r Hin Hd. apply fallback_active_iff in Hf.
    destruct (Temperature.in_years r) eqn:Ey; [|reflexivity].
    assert (Hs : In r (Temperature.select "00" df)) by (apply select_in; auto).
    rewrite Hf in Hs. destruct Hs.
  - intros H. apply fallback_active_iff.
    destruct (Temperature.select "00" df) as [|r l] eqn:E; [reflexivity|].
    assert (Hs : In r (Temperature.select "00" df)) by (rewrite E; now left).
    apply select_in in Hs. destruct Hs as (Hin & Hd & Hy).
    rewrite (H r Hin Hd) in Hy. discriminate.
  - rewrite <- Hsw. apply load_ok. exists df. repeat split; assumption.
  - intros r. apply select_in.
  - intros Hf f Hm Hin. unfold used in Hin. rewrite Hf in Hin.
    apply in_map_iff in Hin. destruct Hin as [m [<- Hin]].
    apply aggregate_in in Hin. destruct Hin as [f [Hg ->]].
    simpl in Hm. rewrite rows_of_select in Hg. contradiction.
Qed.

(** C7. The synthetic Hawaii row is appended exactly when no row of the
    resolved table has the code HI, which is exactly when the averaged rows
    hold none for FIPS 051; when they do, the only HI row of the output
    carries the means of those rows. *)
Theorem hawaii_synthesized_iff_absent (lines : list string) (T : list Temperature.row) :
  Temperature.load_noaa_temperature_data py_float lines = Py.Ok T ->
  exists df, Temperature.read_rows py_float [] lines = Py.Ok df /\
    let dec_avg := resolved_means df in
    let real := rows_of fips_key "051" (Temperature.statewide_rows df) in
    (T = (dec_avg ++ [Temperature.hawaii_row])%list
     <-> ~ In "HI" (map Temperature.state_code dec_avg))
    /\ (T = dec_avg <-> In "HI" (map Temperature.state_code dec_avg))
    /\ (In "HI" (map Temperature.state_code dec_avg) <-> real <> [])
    /\ (real <> [] ->
        In (mean_row "HI" "Hawaii" real) T
        /\ forall r, In r T -> Temperature.state_code r = "HI" ->
                     r = mean_row "HI" "Hawaii" real).
Proof.
  intros HT. pose proof (load_nodup py_float lines T HT) as Hnd.
  apply load_ok in HT. destruct HT as [df (Hr & Hne & ->)].
  exists df. split; [exact Hr|]. intros dec_avg real. subst dec_avg.
  assert (Hlen : forall l : list Temperature.row, l <> (l ++ [Temperature.hawaii_row])%list).
  { intros l E. apply (f_equal (@List.length _)) in E.
    rewrite length_app in E. simpl in E. lia. }
  assert (Hreal : In "HI" (map Temperature.state_code (resolved_means df)) <-> real <> []).
  { split.
    - intros Hin. apply in_map_iff in Hin. destruct Hin as [r [Ec Hin]].
      apply resolved_means_in in Hin. destruct Hin as [f (Hg & Hd & _)].
      rewrite Ec in Hd.
      assert (L : String.length f = 3%nat).
      { apply rows_of_nonempty in Hg. apply in_map_iff in Hg.
        destruct Hg as [x [[= <-] Hx]]. apply statewide_rows_incl in Hx.
        pose proof (read_rows_fips py_float lines df Hr) as Hall.
        rewrite Forall_forall in Hall. now apply Hall. }
      pose proof (resolved_fips f _ L Hd) as Ef.
      rewrite (hawaii_key _ _ Hd) in Ef. subst f. exact Hg.
    - intros Hg. apply in_map_iff. exists (mean_row "HI" "Hawaii" real).
      split; [reflexivity|]. apply resolved_means_in. exists "051".
      split; [exact Hg|]. split; reflexivity. }
  destruct (add_hawaii_cases (resolved_means df)) as [[Hin E]|[Hn E]].
  - rewrite E. split; [|split; [|split]].
    + split; [intros E'; destruct (Hlen _ E') | tauto].
    + tauto.
    + exact Hreal.
    + intros Hg.
      assert (Hm : In (mean_row "HI" "Hawaii" real) (resolved_means df)).
      { apply resolved_means_in. exists "051". split; [exact Hg|]. split; reflexivity. }
      split; [exact Hm|]. intros r Hr' Hc. rewrite E in Hnd.
      apply (nodup_map_injective Temperature.state_code (resolved_means df)); auto.
  - rewrite E. split; [|split; [|split]].
    + tauto.
    + split; [intros E'; symmetry in E'; destruct (Hlen _ E') | tauto].
    + exact Hreal.
    + intros Hg. apply Hreal in Hg. contradiction.
Qed.

(** C9. For a state whose 3-digit FIPS has division 00 rows within the
    window, the loader returns exactly one row for the state, and its
    avg_dec_temperature and avg_nov_temperature are the means of the
    December and November values of exactly those rows, as the pandas group
    mean computes them: where none of the values is missing, the float64
    sum of all the values, added in row order with compensation, over the
    number of rows. *)
Theorem state_means_are_arithmetic_means
  (lines : list string) (df : list Temperature.raw_row) (f c n : string) :
  Temperature.read_rows py_float [] lines = Py.Ok df ->
  let g := matching_rows f "00" df in
  g <> [] ->
  dict_get STATE_FIPS (Temperature.state_fips_2 f) = Some (c, n) ->
  exists T,
    Temperature.load_noaa_temperature_data py_float lines = Py.Ok T
    /\ In (mean_row c n g) T
    /\ (forall r, In r T -> Temperature.state_code r = c -> r = mean_row c n g)
    /\ (Forall (fun x => Pd.isna x = false) (map Temperature.dec g) ->
        Temperature.avg_dec_temperature (mean_row c n g)
        = mean_of_all (map Temperature.dec g))
    /\ (Forall (fun x => Pd.isna x = false) (map Temperature.nov g) ->
        Temperature.avg_nov_temperature (mean_row c n g)
        = mean_of_all (map Temperature.nov g)).
Proof.
  intros Hr g Hg Hd.
  assert (Hs : Temperature.select "00" df <> []).
  { intros E. apply Hg. unfold g. rewrite <- rows_of_select, E. reflexivity. }
  assert (Hf : fallback_active df = false).
  { destruct (fallback_active df) eqn:E; [|reflexivity].
    apply fallback_active_iff in E. contradiction. }
  assert (Hne : df <> []) by (intros ->; apply Hs; reflexivity).
  assert (HT : Temperature.load_noaa_temperature_data py_float lines
               = Py.Ok (Temperature.add_hawaii (resolved_means df))).
  { apply load_ok. exists df. repeat split; assumption. }
  assert (Hin : In (mean_row c n g) (resolved_means df)).
  { apply resolved_means_in. exists f.
    rewrite statewide_rows_cases, Hf, rows_of_select. fold g.
    split; [exact Hg|]. split; [exact Hd | reflexivity]. }
  eexists. split; [exact HT|]. split; [now apply add_hawaii_incl|].
  split; [|split].
  - intros r Hr' Hc. pose proof (load_nodup py_float lines _ HT) as Hnd.
    apply (nodup_map_injective Temperature.state_code
             (Temperature.add_hawaii (resolved_means df))); auto.
    now apply add_hawaii_incl.
  - intros Hall. simpl. now apply fmean_mean_of_all.
  - intros Hall. simpl. now apply fmean_mean_of_all.
Qed.

End TemperatureTheorems.

(** Alabama has a division 00 row and Arizona only a division 01 row: no
    fallback, and Arizona is absent from the table. With first divisions only,
    the fallback serves both states. *)
Lemma fallback_iff_no_statewide_row_witness :
  Temperature.load_noaa_temperature_data sample_float mixed_lines
  = Py.Ok [ {| Temperature.state_code := "AL"; Temperature.state_name := "Alabama";
               Temperature.avg_dec_temperature := 40; Temperature.avg_nov_temperature := 50 |};
            Temperature.hawaii_row ]
  /\ Temperature.load_noaa_temperature_data sample_float division_lines
     = Py.Ok [ {| Temperature.state_code := "AL"; Temperature.state_name := "Alabama";
                  Temperature.avg_dec_temperature := 41; Temperature.avg_nov_temperature := 51 |};
               {| Temperature.state_code := "AZ"; Temperature.state_name := "Arizona";
                  Temperature.avg_dec_temperature := 55; Temperature.avg_nov_temperature := 60 |};
               Temperature.hawaii_row ].
Proof.
  split.
  - eassert (Hr : Temperature.read_rows sample_float [] mixed_lines = Py.Ok _)
      by (vm_compute; reflexivity).
    destruct (fallback_iff_no_statewide_row sample_float mixed_lines _ Hr)
      as (_ & Hload & _); [discriminate|].
    rewrite Hload. reflexivity.
  - eassert (Hr : Temperature.read_rows sample_float [] division_lines = Py.Ok _)
      by (vm_compute; reflexivity).
    destruct (fallback_iff_no_statewide_row sample_float division_lines _ Hr)
      as (_ & Hload & _); [discriminate|].
    rewrite Hload. reflexivity.
Defined.

(** A file with two Hawaii records: the table holds their means (71 and 77)
    and not the synthetic constants. *)
Lemma hawaii_synthesized_iff_absent_witness :
  exists T,
    Temperature.load_noaa_temperature_data sample_float hawaii_lines = Py.Ok T
    /\ In {| Temperature.state_code := "HI"; Temperature.state_name := "Hawaii";
             Temperature.avg_dec_temperature := 71;
             Temperature.avg_nov_temperature := 77 |} T
    /\ ~ In Temperature.hawaii_row T.
Proof.
  eassert (HT : Temperature.load_noaa_temperature_data sample_float hawaii_lines = Py.Ok _)
    by (vm_compute; reflexivity).
  eexists. split; [exact HT|].
  destruct (hawaii_synthesized_iff_absent sample_float hawaii_lines _ HT)
    as (df & Hr & _ & _ & _ & H).
  vm_compute in Hr. injection Hr as <-.
  destruct H as [Hin Huniq]; [vm_compute; discriminate|].
  split; [exact Hin|].
  intros Hh. apply Huniq in Hh; [|reflexivity].
  apply (f_equal Temperature.avg_dec_temperature) in Hh.
  assert (F : (73 =? 71)%float = true) by (rewrite Hh at 1; reflexivity).
  discriminate F.
Defined.

(** Alabama over the five years of the window: December 40, 42, 44, 46, 48
    and November 50, 52, 54, 56, 58 give 44 and 54; the row of 2019 and the
    text line do not count. *)
Lemma state_means_are_arithmetic_means_witness :
  exists T,
    Temperature.load_noaa_temperature_data sample_float alabama_lines = Py.Ok T
    /\ In {| Temperature.state_code := "AL"; Temperature.state_name := "Alabama";
             Temperature.avg_dec_temperature := 44;
             Temperature.avg_nov_temperature := 54 |} T.
Proof.
  eassert (Hr : Temperature.read_rows sample_float [] alabama_lines = Py.Ok _)
    by (vm_compute; reflexivity).
  destruct (state_means_are_arithmetic_means sample_float alabama_lines _
              "001" "AL" "Alabama" Hr) as (T & HT & Hin & _).
  - vm_compute. discriminate.
  - reflexivity.
  - exists T. split; [exact HT | exact Hin].
Defined.

(** ** The left merge *)

Section MergeFacts.
Context {L R : Type}.
Variable lkey : L -> string.
Variable rkey : R -> string.

Lemma matches_in (l : L) (right : list R) (r : R) :
  In r (Pd.matches lkey rkey l right) <-> In r right /\ rkey r = lkey l.
Proof. unfold Pd.matches. now rewrite filter_In, String.eqb_eq. Qed.

Lemma matches_nil (l : L) (right : list R) :
  Pd.matches lkey rkey l right = [] <-> ~ In (lkey l) (map rkey right).
Proof.
  split.
  - intros E Hin. apply in_map_iff in Hin. destruct Hin as [r [Hk Hr]].
    assert (H : In r (Pd.matches lkey rkey l right)) by (apply matches_in; auto).
    rewrite E in H. destruct H.
  - intros Hn. destruct (Pd.matches lkey rkey l right) as [|r ms] eqn:E; [reflexivity|].
    assert (H : In r (Pd.matches lkey rkey l right)) by (rewrite E; now left).
    apply matches_in in H. destruct H as [Hr Hk].
    destruct Hn. rewrite <- Hk. now apply in_map.
Qed.

(** With distinct keys on the right, a left row has at most one match. *)
Lemma matches_at_most_one (l : L) (right : list R) :
  NoDup (map rkey right) -> (List.length (Pd.matches lkey rkey l right) <= 1)%nat.
Proof.
  unfold Pd.matches. induction right as [|r right IH]; simpl; intros Hnd; [lia|].
  inversion Hnd as [|? ? Hr Hrest]; subst.
  destruct (rkey r =? lkey l)%string eqn:E; [|now apply IH].
  apply String.eqb_eq in E. simpl.
  replace (filter (fun r0 => (rkey r0 =? lkey l)%string) right) with (@nil R); [simpl; lia|].
  symmetry. apply (proj2 (matches_nil l right)). now rewrite <- E.
Qed.

Lemma merge_left_in (left : list L) (right : list R) (l : L) (o : option R) :
  In (l, o) (Pd.merge_left lkey rkey left right) ->
  In l left
  /\ match o with
     | Some r => In r right /\ rkey r = lkey l
     | None => ~ In (lkey l) (map rkey right)
     end.
Proof.
  unfold Pd.merge_left. rewrite in_flat_map. intros [l' [Hl H]].
  destruct (Pd.matches lkey rkey l' right) as [|r ms] eqn:E.
  - destruct H as [[= <- <-]|[]]. split; [exact Hl|]. now apply matches_nil.
  - apply in_map_iff in H. destruct H as [r' [[= <- <-] Hr']].
    split; [exact Hl|]. apply matches_in. now rewrite E.
Qed.

(** With distinct keys on the right, the merge keeps exactly the left rows,
    once each and in order. *)
Lemma merge_left_rows (left : list L) (right : list R) :
  NoDup (map rkey right) ->
  map fst (Pd.merge_left lkey rkey left right) = left.
Proof.
  intros Hnd. unfold Pd.merge_left.
  set (pairs := fun l : L =>
                  match Pd.matches lkey rkey l right with
                  | [] => [(l, @None R)]
                  | ms => map (fun r => (l, Some r)) ms
                  end).
  induction left as [|l left IH]; [reflexivity|].
  cbn [flat_map]. rewrite map_app, IH. f_equal.
  pose proof (matches_at_most_one l right Hnd) as Hlen. unfold pairs.
  destruct (Pd.matches lkey rkey l right) as [|r [|r' ms]]; simpl in *;
    [reflexivity | reflexivity | lia].
Qed.

End MergeFacts.

(** ** The combiner *)

Lemma combined_in (P : list Passengers.row) (D : list Delays.row)
  (T : list Temperature.row) (row : Combined.row) :
  In row (Combined.combine_datasets P D T) ->
  exists p_float d_float t p d,
    row = Combined.fill p_float d_float (t, p, d)
    /\ In t T
    /\ match p with
       | Some x => In x P /\ Passengers.state_code x = Temperature.state_code t
       | None => ~ In (Temperature.state_code t) (map Passengers.state_code P)
       end
    /\ match d with
       | Some x => In x D /\ Delays.state_code x = Temperature.state_code t
       | None => ~ In (Temperature.state_code t) (map Delays.state_code D)
       end.
Proof.
  unfold Combined.combine_datasets. cbv zeta. rewrite in_map_iff.
  intros [[[t p] d] [<- H]].
  apply merge_left_in in H. destruct H as [H Hd].
  apply merge_left_in in H. destruct H as [Ht Hp].
  do 2 eexists. exists t, p, d. auto.
Qed.

Lemma combined_codes (P : list Passengers.row) (D : list Delays.row)
  (T : list Temperature.row) :
  NoDup (map Passengers.state_code P) -> NoDup (map Delays.state_code D) ->
  map Combined.state_code (Combined.combine_datasets P D T)
  = map Temperature.state_code T.
Proof.
  intros HP HD. unfold Combined.combine_datasets. cbv zeta.
  repeat match goal with
         | |- context [Pd.has_missing ?m] => generalize (Pd.has_missing m); intro
         end.
  rewrite map_map.
  rewrite <- (merge_left_rows Temperature.state_code Passengers.state_code T P HP) at 2.
  rewrite <- (merge_left_rows (fun x : Temperature.row * option Passengers.row =>
                                 Temperature.state_code (fst x)) Delays.state_code
                _ D HD) at 2.
  rewrite !map_map. apply map_ext. intros [[t p] d]. reflexivity.
Qed.

(** C2. For the outputs of the three loaders, the combined table has exactly
    the state codes of the temperature table, each once and in the same
    order; a state of the passenger or delay data that is not in the
    temperature table is in no row; and a row whose state is in neither the
    passenger nor the delay data has holiday_travel_volume 0 and
    avg_delay_pct 0. *)
Theorem combined_universe_is_temperature
  (py_float : string -> option float) (lines : list string)
  (passengers_csv : list PassengerCsv.row) (delays_csv : list DelayCsv.row)
  (T : list Temperature.row) :
  Temperature.load_noaa_temperature_data py_float lines = Py.Ok T ->
  let combined :=
    Combined.combine_datasets (Passengers.load_airport_passengers passengers_csv)
      (Delays.load_flight_delays delays_csv) T in
  map Combined.state_code combined = map Temperature.state_code T
  /\ NoDup (map Combined.state_code combined)
  /\ (forall s, ~ In s (map Temperature.state_code T) ->
                ~ In s (map Combined.state_code combined))
  /\ (forall s, In s (map Temperature.state_code T) ->
                ~ In (Some s) (map PassengerCsv.state_code passengers_csv) ->
                ~ In (Some s) (map DelayCsv.state_code delays_csv) ->
                exists row, In row combined
                            /\ Combined.state_code row = s
                            /\ Combined.holiday_travel_volume row = Some 0
                            /\ Combined.avg_delay_pct row = 0%float).
Proof.
  intros HT combined.
  assert (Hc : map Combined.state_code combined = map Temperature.state_code T).
  { apply combined_codes; [apply passengers_nodup | apply delays_nodup]. }
  split; [exact Hc|]. split; [|split].
  - rewrite Hc. eapply load_nodup; exact HT.
  - intros s Hn. now rewrite Hc.
  - intros s Hs Hp Hd. rewrite <- Hc in Hs. apply in_map_iff in Hs.
    destruct Hs as [row [Hk Hin]]. exists row. split; [exact Hin|]. split; [exact Hk|].
    apply combined_in in Hin. destruct Hin as (pf & df & t & p & d & -> & _ & HP & HD).
    simpl in Hk. subst s.
    destruct p as [x|].
    { destruct HP as [Hx Hkx]. destruct Hp. apply passengers_states.
      rewrite <- Hkx. now apply in_map. }
    destruct d as [x|].
    { destruct HD as [Hx Hkx]. destruct Hd. apply delays_states.
      rewrite <- Hkx. now apply in_map. }
    split; reflexivity.
Qed.

Example combined_sample :
  Combined.combine_datasets (Passengers.load_airport_passengers ca_markets)
    (Delays.load_flight_delays tx_markets) mixed_temperatures
  = [ {| Combined.state_code := "AL"; Combined.state_name := "Alabama";
         Combined.avg_dec_temperature := 40; Combined.avg_nov_temperature := 50;
         Combined.holiday_travel_volume := Some 0;
         Combined.nov_passengers := None; Combined.dec_passengers := None;
         Combined.avg_delay_pct := 0; Combined.avg_delay_minutes := nan;
         Combined.total_flights := None; Combined.delayed_flights := None;
         Combined.cancelled_flights := None |};
      {| Combined.state_code := "HI"; Combined.state_name := "Hawaii";
         Combined.avg_dec_temperature := 73; Combined.avg_nov_temperature := 75;
         Combined.holiday_travel_volume := Some 0;
         Combined.nov_passengers := None; Combined.dec_passengers := None;
         Combined.avg_delay_pct := 0; Combined.avg_delay_minutes := nan;
         Combined.total_flights := None; Combined.delayed_flights := None;
         Combined.cancelled_flights := None |} ].
Proof. reflexivity. Qed.

(** Passengers for CA only, delays for TX only, temperatures for AL and HI:
    the combined table has AL and HI, both with volume 0 and delay rate 0. *)
Lemma combined_universe_is_temperature_witness :
  let combined :=
    Combined.combine_datasets (Passengers.load_airport_passengers ca_markets)
      (Delays.load_flight_delays tx_markets) mixed_temperatures in
  map Combined.state_code combined = ["AL"; "HI"]
  /\ ~ In "CA" (map Combined.state_code combined)
  /\ ~ In "TX" (map Combined.state_code combined)
  /\ exists row, In row combined
                 /\ Combined.state_code row = "AL"
                 /\ Combined.holiday_travel_volume row = Some 0
                 /\ Combined.avg_delay_pct row = 0%float.
Proof.
  assert (HT : Temperature.load_noaa_temperature_data sample_float mixed_lines
               = Py.Ok mixed_temperatures) by reflexivity.
  destruct (combined_universe_is_temperature sample_float mixed_lines
              ca_markets tx_markets mixed_temperatures HT) as (Hc & _ & Habs & Hzero).
  split; [exact Hc|]. split; [|split].
  - apply Habs. simpl. intros [H|[H|[]]]; discriminate H.
  - apply Habs. simpl. intros [H|[H|[]]]; discriminate H.
  - apply (Hzero "AL").
    + now left.
    + simpl. intros [H|[H|[]]]; discriminate H.
    + simpl. intros [H|[H|[]]]; discriminate H.
Defined.

(** C6, as stated, fails: for a state without delay data only avg_delay_pct
    is filled with 0; avg_delay_minutes stays NaN and the three flight counts
    stay missing. *)
Lemma other_delay_fields_stay_missing :
  exists row,
    In row (Combined.combine_datasets (Passengers.load_airport_passengers ca_markets)
              (Delays.load_flight_delays tx_markets) mixed_temperatures)
    /\ Combined.state_code row = "AL"
    /\ ~ In "AL" (map Delays.state_code (Delays.load_flight_delays tx_markets))
    /\ Combined.avg_delay_pct row = 0%float
    /\ Pd.isna (Combined.avg_delay_minutes row) = true
    /\ Combined.avg_delay_minutes row <> 0%float
    /\ Combined.total_flights row <> Some 0
    /\ Combined.delayed_flights row <> Some 0
    /\ Combined.cancelled_flights row <> Some 0.
Proof.
  eexists. split; [left; reflexivity|]. simpl.
  split; [reflexivity|]. split; [intros [H|[]]; discriminate H|].
  split; [reflexivity|]. split; [reflexivity|].
  split; [|repeat split; discriminate].
  intros H. assert (F : Pd.isna 0 = true) by (rewrite <- H; reflexivity).
  discriminate F.
Qed.

(** C6, amended. In the combiner's output, a row whose state has no delay
    match has avg_delay_pct 0, while avg_delay_minutes is NaN and
    total_flights, delayed_flights and cancelled_flights are missing: the
    zero fill covers avg_delay_pct alone among the delay fields. *)
Theorem only_delay_pct_is_zero_filled
  (P : list Passengers.row) (D : list Delays.row) (T : list Temperature.row)
  (row : Combined.row) :
  In row (Combined.combine_datasets P D T) ->
  ~ In (Combined.state_code row) (map Delays.state_code D) ->
  Combined.avg_delay_pct row = 0%float
  /\ Pd.isna (Combined.avg_delay_minutes row) = true
  /\ Combined.total_flights row = None
  /\ Combined.delayed_flights row = None
  /\ Combined.cancelled_flights row = None.
Proof.
  intros Hin Hn. apply combined_in in Hin.
  destruct Hin as (pf & df & t & p & d & -> & _ & _ & HD). simpl in Hn.
  destruct d as [x|].
  - destruct HD as [Hx Hk]. destruct Hn. rewrite <- Hk. now apply in_map.
  - repeat split.
Qed.

Lemma only_delay_pct_is_zero_filled_witness :
  exists row,
    In row (Combined.combine_datasets (Passengers.load_airport_passengers ca_markets)
              (Delays.load_flight_delays tx_markets) mixed_temperatures)
    /\ Combined.state_code row = "HI"
    /\ Combined.avg_delay_pct row = 0%float
    /\ Pd.isna (Combined.avg_delay_minutes row) = true
    /\ Combined.total_flights row = None
    /\ Combined.delayed_flights row = None
    /\ Combined.cancelled_flights row = None.
Proof.
  eexists. split; [right; left; reflexivity|]. split; [reflexivity|].
  eapply (only_delay_pct_is_zero_filled
            (Passengers.load_airport_passengers ca_markets)
            (Delays.load_flight_delays tx_markets) mixed_temperatures).
  - right. left. reflexivity.
  - simpl. intros [H|[]]. discriminate H.
Defined.

(** * Further properties of the pipeline *)

(** ** The reverse table *)

Lemma state_names_of_fips (k c n : string) :
  In (k, (c, n)) STATE_FIPS -> dict_get STATE_NAMES c = Some n.
Proof.
  intros H. simpl in H.
  repeat (destruct H as [H|H]; [injection H as <- <- <-; reflexivity|]).
  destruct H.
Qed.

(** ** The shape of the temperature table *)

Section TemperatureShape.
Variable py_float : string -> option float.

Lemma load_rows_from_table (lines : list string) (T : list Temperature.row)
  (r : Temperature.row) :
  Temperature.load_noaa_temperature_data py_float lines = Py.Ok T -> In r T ->
  exists k, In (k, (Temperature.state_code r, Temperature.state_name r)) STATE_FIPS.
Proof.
  intros HT Hin. apply load_ok in HT. destruct HT as [df (_ & _ & ->)].
  destruct (add_hawaii_cases (resolved_means df)) as [[_ E]|[_ E]];
    rewrite E in Hin; clear E.
  - apply resolved_means_in in Hin. destruct Hin as [f (_ & Hd & _)].
    eexists. apply dict_get_in. exact Hd.
  - apply in_app_or in Hin. destruct Hin as [Hin|[<-|[]]].
    + apply resolved_means_in in Hin. destruct Hin as [f (_ & Hd & _)].
      eexists. apply dict_get_in. exact Hd.
    + exists "51". apply (dict_get_in STATE_FIPS "51"). reflexivity.
Qed.

(** X1. Whenever the temperature loader returns, its table has no repeated
    state code, every row carries a (code, name) pair of [STATE_FIPS], the
    name being the one [STATE_NAMES] gives for the code, and there are at
    most 50 rows. *)
Theorem temperature_table_within_reference
  (lines : list string) (T : list Temperature.row) :
  Temperature.load_noaa_temperature_data py_float lines = Py.Ok T ->
  NoDup (map Temperature.state_code T)
  /\ (forall r, In r T ->
        (exists k, In (k, (Temperature.state_code r, Temperature.state_name r)) STATE_FIPS)
        /\ dict_get STATE_NAMES (Temperature.state_code r)
           = Some (Temperature.state_name r))
  /\ (List.length T <= 50)%nat.
Proof.
  intros HT.
  pose proof (load_nodup py_float lines T HT) as Hnd.
  split; [exact Hnd|]. split.
  - intros r Hin. destruct (load_rows_from_table lines T r HT Hin) as [k Hk].
    split; [now exists k | now apply (state_names_of_fips k)].
  - rewrite <- (length_map Temperature.state_code).
    change 50%nat with (List.length (map (fun e : string * (string * string) => fst (snd e)) STATE_FIPS)).
    apply NoDup_incl_length; [exact Hnd|].
    intros c Hc. apply in_map_iff in Hc. destruct Hc as [r [<- Hin]].
    destruct (load_rows_from_table lines T r HT Hin) as [k Hk].
    apply in_map_iff. exists (k, (Temperature.state_code r, Temperature.state_name r)).
    split; [reflexivity | exact Hk].
Qed.

(** X2. Whenever the temperature loader returns, its table has exactly one
    row for Hawaii, named Hawaii; in particular the table is never empty. *)
Theorem temperature_table_has_one_hawaii
  (lines : list string) (T : list Temperature.row) :
  Temperature.load_noaa_temperature_data py_float lines = Py.Ok T ->
  exists r, In r T
            /\ Temperature.state_code r = "HI"
            /\ Temperature.state_name r = "Hawaii"
            /\ forall r', In r' T -> Temperature.state_code r' = "HI" -> r' = r.
Proof.
  intros HT.
  pose proof (load_nodup py_float lines T HT) as Hnd.
  assert (Hex : exists r, In r T /\ Temperature.state_code r = "HI").
  { pose proof HT as HT'. apply load_ok in HT'. destruct HT' as [df (_ & _ & ->)].
    destruct (add_hawaii_cases (resolved_means df)) as [[Hin E]|[_ E]]; rewrite E.
    - apply in_map_iff in Hin. destruct Hin as [r [Hc Hin]]. now exists r.
    - exists Temperature.hawaii_row. split; [|reflexivity].
      apply in_or_app. right. now left. }
  destruct Hex as [r [Hin Hc]]. exists r. split; [exact Hin|]. split; [exact Hc|].
  split.
  - destruct (load_rows_from_table lines T r HT Hin) as [k Hk].
    rewrite Hc in Hk. apply state_names_of_fips in Hk.
    change (dict_get STATE_NAMES "HI") with (Some "Hawaii") in Hk. congruence.
  - intros r' Hin' Hc'.
    apply (nodup_map_injective Temperature.state_code T); auto. congruence.
Qed.

End TemperatureShape.

Lemma temperature_table_within_reference_witness :
  exists T,
    Temperature.load_noaa_temperature_data sample_float division_lines = Py.Ok T
    /\ List.length T = 3%nat
    /\ NoDup (map Temperature.state_code T)
    /\ forall r, In r T ->
         dict_get STATE_NAMES (Temperature.state_code r) = Some (Temperature.state_name r).
Proof.
  eassert (HT : Temperature.load_noaa_temperature_data sample_float division_lines
                = Py.Ok _) by (vm_compute; reflexivity).
  destruct (temperature_table_within_reference sample_float division_lines _ HT)
    as (Hnd & Hrows & _).
  eexists. split; [exact HT|]. split; [reflexivity|]. split; [exact Hnd|].
  intros r Hin. now apply Hrows.
Defined.

Lemma temperature_table_has_one_hawaii_witness :
  exists T r,
    Temperature.load_noaa_temperature_data sample_float alabama_lines = Py.Ok T
    /\ In r T /\ Temperature.state_code r = "HI" /\ Temperature.state_name r = "Hawaii".
Proof.
  eassert (HT : Temperature.load_noaa_temperature_data sample_float alabama_lines
                = Py.Ok _) by (vm_compute; reflexivity).
  destruct (temperature_table_has_one_hawaii sample_float alabama_lines _ HT)
    as (r & Hin & Hc & Hn & _).
  eexists. exists r. split; [exact HT|]. auto.
Defined.

(** ** The exceptions of the temperature loader *)

Section TemperatureErrors.
Variable py_float : string -> option float.

Lemma traverse_float_ok_iff (xs : list string) :
  (exists ts, Py.traverse (fun x => Py.of_option Py.ValueError (py_float x)) xs = Py.Ok ts)
  <-> forall x, In x xs -> py_float x <> None.
Proof.
  induction xs as [|x xs IH]; simpl.
  - split; [intros _ y [] | intros _; now exists []].
  - destruct (py_float x) as [t|] eqn:E; simpl.
    + destruct (Py.traverse _ xs) as [ts|e] eqn:Et; simpl.
      * split; [|intros _; eexists; reflexivity].
        intros _ y [<-|Hy]; [congruence|]. apply IH; [now exists ts | exact Hy].
      * split; [intros [ts H]; discriminate|].
        intros H. destruct (proj2 IH) as [ts Hts]; [|discriminate].
        intros y Hy. apply H. now right.
    + split; [intros [ts H]; discriminate|].
      intros H. destruct (H x); [now left | exact E].
Qed.

Lemma parse_line_raise (line : string) (e : Py.exn) :
  Temperature.parse_line py_float line = Py.Raise e ->
  e = Py.IndexError \/ e = Py.ValueError.
Proof.
  unfold Temperature.parse_line.
  destruct (13 <=? List.length (Py.split line))%nat; [|discriminate].
  unfold Py.index, Py.of_option.
  destruct (get 5 (hd "" (Py.split line))); simpl; [|intros [= <-]; now left].
  destruct (Py.int _) as [y|e'] eqn:Ey; simpl.
  - destruct (Py.traverse _ _) as [ts|e'] eqn:Et; simpl; [discriminate|].
    intros [= <-]. right. eapply traverse_float_raise; exact Et.
  - intros [= <-]. right. eapply int_raise; exact Ey.
Qed.

Lemma parse_line_none_iff (line : string) :
  Temperature.parse_line py_float line = Py.Ok None
  <-> (List.length (Py.split line) < 13)%nat.
Proof.
  split; [|apply parse_line_short].
  unfold Temperature.parse_line.
  destruct (Nat.leb_spec 13 (List.length (Py.split line))) as [Hn|Hn]; [|intros _; lia].
  destruct (Py.index _ 5); simpl; [|discriminate].
  destruct (Py.int _); simpl; [|discriminate].
  destruct (Py.traverse _ _); simpl; discriminate.
Qed.

(** X4. A line raises ValueError exactly when it has 13 tokens or more, a
    first token of 6 characters or more, and either characters 6 to 9 of that
    token are not an integer literal or one of the next twelve tokens is not
    a float literal; tokens after the thirteenth are never looked at. *)
Theorem parse_line_value_error (line : string) :
  Temperature.parse_line py_float line = Py.Raise Py.ValueError
  <-> (13 <= List.length (Py.split line))%nat
      /\ (6 <= String.length (hd "" (Py.split line)))%nat
      /\ (Py.int (Py.slice 6 10 (hd "" (Py.split line))) = Py.Raise Py.ValueError
          \/ exists x, In x (Py.slice_list 1 13 (Py.split line)) /\ py_float x = None).
Proof.
  unfold Temperature.parse_line.
  destruct (Nat.leb_spec 13 (List.length (Py.split line))) as [Hn|Hn].
  2:{ split; [discriminate | intros [H _]; lia]. }
  unfold Py.index, Py.of_option.
  destruct (get 5 (hd "" (Py.split line))) as [c|] eqn:Eg; simpl.
  2:{ apply get_none_iff in Eg. split; [discriminate | intros (_ & H & _); lia]. }
  assert (Hlen : (6 <= String.length (hd "" (Py.split line)))%nat).
  { destruct (Nat.le_gt_cases 6 (String.length (hd "" (Py.split line)))) as [H|H];
      [exact H|].
    assert (Hg : get 5 (hd "" (Py.split line)) = None) by (apply get_none_iff; lia).
    congruence. }
  destruct (Py.int _) as [y|e] eqn:Ey; simpl.
  - destruct (Py.traverse _ _) as [ts|e] eqn:Et; simpl.
    + split; [discriminate|]. intros (_ & _ & [H|[x [Hx Hf]]]); [discriminate|].
      assert (Hall : forall x, In x (Py.slice_list 1 13 (Py.split line)) ->
                               py_float x <> None).
      { apply traverse_float_ok_iff. now exists ts. }
      destruct (Hall x Hx Hf).
    + pose proof (traverse_float_raise py_float _ _ Et) as ->.
      split; [|reflexivity]. intros _. split; [exact Hn|]. split; [exact Hlen|].
      right.
      destruct (existsb (fun x => match py_float x with None => true | _ => false end)
                  (Py.slice_list 1 13 (Py.split line))) eqn:Ex.
      * apply existsb_exists in Ex. destruct Ex as [x [Hx Hf]].
        exists x. split; [exact Hx|]. now destruct (py_float x).
      * assert (Hok : exists ts, Py.traverse
                        (fun x => Py.of_option Py.ValueError (py_float x))
                        (Py.slice_list 1 13 (Py.split line)) = Py.Ok ts).
        { apply traverse_float_ok_iff. intros x Hx Hf.
          assert (Ht : existsb (fun x => match py_float x with None => true | _ => false end)
                         (Py.slice_list 1 13 (Py.split line)) = true).
          { apply existsb_exists. exists x. split; [exact Hx|]. now rewrite Hf. }
          congruence. }
        destruct Hok as [ts Hts]. unfold Py.of_option in Hts.
        rewrite Hts in Et. discriminate Et.
  - pose proof (int_raise _ _ Ey) as ->.
    split; [|reflexivity]. intros _. split; [exact Hn|]. split; [exact Hlen|]. now left.
Qed.

Lemma read_rows_app (l1 l2 : list string) :
  forall acc,
    Temperature.read_rows py_float acc (l1 ++ l2)
    = (a <- Temperature.read_rows py_float acc l1 ;; Temperature.read_rows py_float a l2).
Proof.
  induction l1 as [|x l1 IH]; simpl; intros acc; [reflexivity|].
  destruct (Temperature.parse_line py_float x) as [o|e]; simpl; [apply IH | reflexivity].
Qed.

Lemma read_rows_acc (lines : list string) :
  forall acc,
    Temperature.read_rows py_float acc lines
    = (rows <- Temperature.read_rows py_float [] lines ;; Py.Ok (acc ++ rows)%list).
Proof.
  induction lines as [|x lines IH]; simpl; intros acc; [now rewrite app_nil_r|].
  destruct (Temperature.parse_line py_float x) as [[r|]|e]; simpl.
  - rewrite (IH (acc ++ [r])%list), (IH [r]).
    destruct (Temperature.read_rows py_float [] lines); simpl; [|reflexivity].
    now rewrite <- app_assoc.
  - apply IH.
  - reflexivity.
Qed.

Lemma read_rows_all_ok (lines : list string) :
  Forall (fun l => exists o, Temperature.parse_line py_float l = Py.Ok o) lines ->
  forall acc, exists df, Temperature.read_rows py_float acc lines = Py.Ok df.
Proof.
  induction 1 as [|x lines [o Ho] _ IH]; simpl; intros acc; [now exists acc|].
  rewrite Ho. simpl. apply IH.
Qed.

(** X5. The loader stops at the first line that raises: whatever follows
    it, the exception of that line is the exception of the loader. *)
Theorem first_bad_line_aborts (pre post : list string) (bad : string) (e : Py.exn) :
  Forall (fun l => exists o, Temperature.parse_line py_float l = Py.Ok o) pre ->
  Temperature.parse_line py_float bad = Py.Raise e ->
  Temperature.load_noaa_temperature_data py_float (pre ++ bad :: post) = Py.Raise e.
Proof.
  intros Hpre Hbad. unfold Temperature.load_noaa_temperature_data.
  rewrite read_rows_app.
  destruct (read_rows_all_ok pre Hpre []) as [df ->]. simpl.
  now rewrite Hbad.
Qed.

Lemma read_rows_accepts (lines : list string) :
  forall acc df line,
    Temperature.read_rows py_float acc lines = Py.Ok df -> In line lines ->
    (13 <= List.length (Py.split line))%nat -> df <> [].
Proof.
  induction lines as [|x lines IH]; simpl; intros acc df line H Hin Hlong;
    [destruct Hin|]. destruct Hin as [<-|Hin].
  - destruct (Temperature.parse_line py_float x) as [[r|]|e] eqn:Ep; simpl in H.
    + apply read_rows_ok in H. destruct H as [rows [-> _]].
      intros E. apply app_eq_nil in E. destruct E as [E _].
      apply app_eq_nil in E. destruct E as [_ E]. discriminate.
    + apply parse_line_none_iff in Ep. lia.
    + discriminate.
  - destruct (Temperature.parse_line py_float x) as [o|e]; simpl in H; [|discriminate].
    eapply IH; eauto.
Qed.

(** X3. The loader raises KeyError exactly on the files none of whose lines
    splits into 13 tokens or more. *)
Theorem key_error_iff_no_data_line (lines : list string) :
  Temperature.load_noaa_temperature_data py_float lines = Py.Raise Py.KeyError
  <-> forall line, In line lines -> (List.length (Py.split line) < 13)%nat.
Proof.
  split; [|apply load_all_short].
  unfold Temperature.load_noaa_temperature_data.
  destruct (Temperature.read_rows py_float [] lines) as [df|e] eqn:E; simpl.
  - destruct df as [|r df]; [|discriminate]. intros _ line Hin.
    destruct (Nat.le_gt_cases 13 (List.length (Py.split line))) as [Hlong|Hs]; [|exact Hs].
    destruct (read_rows_accepts lines [] [] line E Hin Hlong). reflexivity.
  - intros [= ->]. apply read_rows_raise in E. destruct E as [line [_ Hp]].
    apply parse_line_raise in Hp. destruct Hp; discriminate.
Qed.

Lemma read_rows_filter (lines : list string) :
  forall acc,
    Temperature.read_rows py_float acc
      (filter (fun l => (13 <=? List.length (Py.split l))%nat) lines)
    = Temperature.read_rows py_float acc lines.
Proof.
  induction lines as [|x lines IH]; intros acc; [reflexivity|].
  cbn [filter].
  destruct (Nat.leb_spec 13 (List.length (Py.split x))) as [H|H];
    cbn [Temperature.read_rows].
  - destruct (Temperature.parse_line py_float x) as [o|e]; simpl; [apply IH | reflexivity].
  - rewrite parse_line_short by exact H. simpl. apply IH.
Qed.

(** X6. Lines of fewer than 13 tokens have no effect at all: the loader
    behaves on a file as on the file without them. *)
Theorem short_lines_have_no_effect (lines : list string) :
  Temperature.load_noaa_temperature_data py_float
    (filter (fun l => (13 <=? List.length (Py.split l))%nat) lines)
  = Temperature.load_noaa_temperature_data py_float lines.
Proof.
  unfold Temperature.load_noaa_temperature_data. now rewrite read_rows_filter.
Qed.

End TemperatureErrors.

Lemma first_bad_line_aborts_witness :
  Temperature.load_noaa_temperature_data sample_float
    (alabama_lines ++ temperature_line "0010022020" "n/a" "40" :: hawaii_lines)
  = Py.Raise Py.ValueError.
Proof.
  apply first_bad_line_aborts.
  - unfold alabama_lines. repeat constructor; eexists; vm_compute; reflexivity.
  - reflexivity.
Defined.

(** ** The rows that cannot count *)

Lemma select_never_selected (d : string) (r : Temperature.raw_row) :
  never_selected r -> d = "00" \/ d = "01" ->
  ((Temperature.division r =? d)%string && Temperature.in_years r) = false.
Proof.
  intros [Hy|[H0 H1]] Hd.
  - rewrite Hy. apply andb_false_r.
  - destruct (String.eqb_spec (Temperature.division r) d) as [E|E]; [|reflexivity].
    destruct Hd; congruence.
Qed.

Lemma select_drop (d : string) (d1 d2 : list Temperature.raw_row) (r : Temperature.raw_row) :
  never_selected r -> d = "00" \/ d = "01" ->
  Temperature.select d (d1 ++ r :: d2) = Temperature.select d (d1 ++ d2).
Proof.
  intros Hr Hd. unfold Temperature.select. rewrite !filter_app. simpl.
  now rewrite (select_never_selected d r Hr Hd).
Qed.

Lemma statewide_rows_drop (d1 d2 : list Temperature.raw_row) (r : Temperature.raw_row) :
  never_selected r ->
  Temperature.statewide_rows (d1 ++ r :: d2) = Temperature.statewide_rows (d1 ++ d2).
Proof.
  intros Hr. unfold Temperature.statewide_rows.
  rewrite !(select_drop "00"), !(select_drop "01") by auto. reflexivity.
Qed.

Section IrrelevantRows.
Variable py_float : string -> option float.

(** X7. A data line whose year is outside 2020-2024, or whose division is
    neither 00 nor 01, changes nothing: as long as the rest of the file has a
    line of 13 tokens or more, the loader behaves on the file as on the file
    without that line. *)
Theorem unselected_line_has_no_effect
  (l1 l2 : list string) (x y : string) (r : Temperature.raw_row) :
  Temperature.parse_line py_float x = Py.Ok (Some r) ->
  never_selected r ->
  In y (l1 ++ l2) -> (13 <= List.length (Py.split y))%nat ->
  Temperature.load_noaa_temperature_data py_float (l1 ++ x :: l2)
  = Temperature.load_noaa_temperature_data py_float (l1 ++ l2).
Proof.
  intros Hx Hr Hy Hlong. unfold Temperature.load_noaa_temperature_data.
  destruct (Temperature.read_rows py_float [] (l1 ++ l2)) as [df'|e] eqn:E'.
  - pose proof (read_rows_accepts py_float _ _ _ _ E' Hy Hlong) as Hne.
    rewrite read_rows_app in E' |- *.
    destruct (Temperature.read_rows py_float [] l1) as [a1|e1]; simpl in *;
      [|discriminate].
    rewrite Hx. simpl. rewrite read_rows_acc in E' |- *.
    destruct (Temperature.read_rows py_float [] l2) as [a2|e2]; simpl in *;
      [|discriminate].
    injection E' as <-. rewrite <- app_assoc. simpl.
    destruct (a1 ++ a2)%list as [|r0 t] eqn:Ea; [congruence|].
    destruct (a1 ++ r :: a2)%list as [|r1 t1] eqn:Eb.
    { apply app_eq_nil in Eb. destruct Eb as [_ Eb]. discriminate. }
    rewrite <- Ea, <- Eb. now rewrite statewide_rows_drop.
  - rewrite read_rows_app in E' |- *.
    destruct (Temperature.read_rows py_float [] l1) as [a1|e1]; simpl in *.
    + rewrite Hx. simpl. rewrite read_rows_acc in E' |- *.
      destruct (Temperature.read_rows py_float [] l2) as [a2|e2]; simpl in *;
        [discriminate|]. congruence.
    + congruence.
Qed.

(** X8. When at least one line is accepted but no accepted row can be
    selected, the loader returns the synthetic Hawaii row and nothing else. *)
Theorem only_hawaii_when_nothing_selected
  (lines : list string) (df : list Temperature.raw_row) :
  Temperature.read_rows py_float [] lines = Py.Ok df -> df <> [] ->
  (forall r, In r df -> never_selected r) ->
  Temperature.load_noaa_temperature_data py_float lines
  = Py.Ok [Temperature.hawaii_row].
Proof.
  intros Hr Hne Hall. apply load_ok. exists df. split; [exact Hr|]. split; [exact Hne|].
  assert (Hs : forall d, d = "00" \/ d = "01" -> Temperature.select d df = []).
  { intros d Hd. unfold Temperature.select.
    clear Hr Hne. induction df as [|r df IH]; simpl; [reflexivity|].
    rewrite (select_never_selected d r) by (auto; apply Hall; now left).
    apply IH. intros r' Hr'. apply Hall. now right. }
  unfold resolved_means, Temperature.statewide_rows.
  rewrite (Hs "00"), (Hs "01") by auto. reflexivity.
Qed.

End IrrelevantRows.

Lemma unselected_line_has_no_effect_witness :
  Temperature.load_noaa_temperature_data sample_float
    ([temperature_line "0010022020" "50" "40"]
       ++ temperature_line "0010021999" "0" "0" :: [temperature_line "0010022021" "52" "42"])
  = Py.Ok [ {| Temperature.state_code := "AL"; Temperature.state_name := "Alabama";
               Temperature.avg_dec_temperature := 41; Temperature.avg_nov_temperature := 51 |};
            Temperature.hawaii_row ].
Proof.
  erewrite (unselected_line_has_no_effect sample_float _ _ _
              (temperature_line "0010022020" "50" "40")).
  - reflexivity.
  - vm_compute. reflexivity.
  - left. reflexivity.
  - now left.
  - vm_compute. lia.
Defined.

Lemma only_hawaii_when_nothing_selected_witness :
  Temperature.load_noaa_temperature_data sample_float
    [ temperature_line "0010022019" "90" "90"; temperature_line "0010322020" "50" "40" ]
  = Py.Ok [Temperature.hawaii_row].
Proof.
  eapply only_hawaii_when_nothing_selected.
  - vm_compute. reflexivity.
  - discriminate.
  - intros r [<-|[<-|[]]].
    + left. reflexivity.
    + right. split; discriminate.
Defined.

(** ** The CSV loaders: order, and what the sums preserve *)

Section GroupOrder.
Context {R : Type}.
Variable key : R -> option string.

Lemma sorted_groups_keys (gs : list (string * list R)) :
  sorted_groups gs -> StronglySorted key_lt (map fst gs).
Proof.
  unfold sorted_groups. induction 1 as [|[k g] gs Hs IH Hall]; simpl; constructor.
  - exact IH.
  - rewrite Forall_map. exact Hall.
Qed.

Lemma add_to_group_perm (k : string) (r : R) (gs : list (string * list R)) :
  Permutation (List.concat (map snd (Pd.add_to_group k r gs)))
              (List.concat (map snd gs) ++ [r]).
Proof.
  induction gs as [|[k' g] gs IH]; simpl; [reflexivity|].
  destruct (String.compare k k'); simpl.
  - rewrite <- !app_assoc. apply Permutation_app_head. apply Permutation_app_comm.
  - change (r :: g ++ List.concat (map snd gs))%list
      with ([r] ++ (g ++ List.concat (map snd gs)))%list.
    apply Permutation_app_comm.
  - rewrite <- app_assoc. apply Permutation_app_head. exact IH.
Qed.

Lemma fold_groups_perm (rows : list R) :
  forall gs,
    Permutation (List.concat (map snd (fold_left (Pd.group_step key) rows gs)))
                (List.concat (map snd gs) ++ keyed key rows).
Proof.
  unfold keyed. induction rows as [|r rows IH]; simpl; intros gs.
  - now rewrite app_nil_r.
  - rewrite IH. unfold Pd.group_step at 1.
    destruct (key r) as [k|]; [|reflexivity].
    rewrite add_to_group_perm, <- app_assoc. reflexivity.
Qed.

(** The groups, put end to end, are the keyed rows in some order. *)
Lemma groupby_perm (rows : list R) :
  Permutation (List.concat (map snd (Pd.groupby key rows))) (keyed key rows).
Proof. unfold Pd.groupby. now rewrite fold_groups_perm. Qed.

End GroupOrder.

Lemma zsum_app (xs ys : list Z) : zsum (xs ++ ys) = zsum xs + zsum ys.
Proof. induction xs as [|x xs IH]; simpl; [reflexivity | rewrite IH; lia]. Qed.

Lemma zsum_perm (xs ys : list Z) : Permutation xs ys -> zsum xs = zsum ys.
Proof. induction 1; simpl; lia. Qed.

Lemma zsum_concat {R : Type} (f : R -> Z) (gs : list (list R)) :
  zsum (map (fun g => zsum (map f g)) gs) = zsum (map f (List.concat gs)).
Proof.
  induction gs as [|g gs IH]; simpl; [reflexivity|].
  now rewrite map_app, zsum_app, IH.
Qed.

Lemma wrap64_add_r (a b : Z) : Pd.wrap64 (a + Pd.wrap64 b) = Pd.wrap64 (a + b).
Proof. rewrite Z.add_comm, wrap64_add_l. f_equal. lia. Qed.

Lemma wrap64_zsum_map {A : Type} (f g : A -> Z) (l : list A) :
  (forall a, Pd.wrap64 (f a) = Pd.wrap64 (g a)) ->
  Pd.wrap64 (zsum (map f l)) = Pd.wrap64 (zsum (map g l)).
Proof.
  intros H. induction l as [|a l IH]; simpl; [reflexivity|].
  rewrite <- wrap64_add_r, IH, wrap64_add_r.
  rewrite <- wrap64_add_l, H, wrap64_add_l. reflexivity.
Qed.

Lemma wrap64_idem (z : Z) : Pd.wrap64 (Pd.wrap64 z) = Pd.wrap64 z.
Proof.
  replace (Pd.wrap64 z) with (Pd.wrap64 z + 0) at 1 by lia.
  rewrite wrap64_add_l. f_equal. lia.
Qed.

(** The int64 sum of a column of group sums is the int64 sum of the column
    over the keyed rows. *)
Lemma sum64_of_group_sums {R : Type} (key : R -> option string) (f : R -> Z)
  (rows : list R) :
  Pd.sum64 (map (fun kg : string * list R => Pd.sum64 (map f (snd kg)))
              (Pd.groupby key rows))
  = Pd.sum64 (map f (keyed key rows)).
Proof.
  rewrite !sum64_wrap.
  rewrite (wrap64_zsum_map _ (fun kg : string * list R => zsum (map f (snd kg)))).
  - f_equal.
    rewrite <- (map_map snd (fun g => zsum (map f g))), zsum_concat.
    apply zsum_perm, Permutation_map, groupby_perm.
  - intros kg. now rewrite sum64_wrap, wrap64_idem.
Qed.

(** X9. Each CSV loader returns one row per distinct state code of its
    input, in strictly increasing order of the code (hence without
    repetition); the rows whose state code is missing belong to no state. *)
Theorem csv_loaders_one_row_per_state
  (passengers_csv : list PassengerCsv.row) (delays_csv : list DelayCsv.row) :
  StronglySorted key_lt
    (map Passengers.state_code (Passengers.load_airport_passengers passengers_csv))
  /\ (forall s, In s (map Passengers.state_code
                        (Passengers.load_airport_passengers passengers_csv))
                <-> In (Some s) (map PassengerCsv.state_code passengers_csv))
  /\ StronglySorted key_lt
       (map Delays.state_code (Delays.load_flight_delays delays_csv))
  /\ (forall s, In s (map Delays.state_code (Delays.load_flight_delays delays_csv))
                <-> In (Some s) (map DelayCsv.state_code delays_csv)).
Proof.
  split; [|split; [|split]].
  - unfold Passengers.load_airport_passengers.
    rewrite (aggregated_keys PassengerCsv.state_code _ Passengers.state_code)
      by reflexivity.
    apply sorted_groups_keys, groupby_sorted.
  - intros s. apply passengers_states.
  - unfold Delays.load_flight_delays.
    rewrite (aggregated_keys DelayCsv.state_code _ Delays.state_code) by reflexivity.
    apply sorted_groups_keys, groupby_sorted.
  - intros s. apply delays_states.
Qed.

(** X10. The passenger loader preserves the total: the int64 sum of the
    holiday_travel_volume column of its output is the exact total of
    nov_passengers + dec_passengers over the input rows that have a state
    code, wrapped once; it is that total whenever the total fits an int64. *)
Theorem passenger_total_is_preserved (df : list PassengerCsv.row) :
  let total :=
    zsum (map (fun r => PassengerCsv.nov_passengers r + PassengerCsv.dec_passengers r)
              (keyed PassengerCsv.state_code df)) in
  Pd.sum64 (map Passengers.holiday_travel_volume (Passengers.load_airport_passengers df))
  = Pd.wrap64 total
  /\ (in_int64 total ->
      Pd.sum64 (map Passengers.holiday_travel_volume
                  (Passengers.load_airport_passengers df)) = total).
Proof.
  intros total.
  assert (E : Pd.sum64 (map Passengers.holiday_travel_volume
                          (Passengers.load_airport_passengers df)) = Pd.wrap64 total).
  { unfold Passengers.load_airport_passengers. rewrite map_map. simpl.
    rewrite sum64_wrap.
    rewrite (wrap64_zsum_map _
               (fun kg : string * list PassengerCsv.row =>
                  zsum (map (fun r => PassengerCsv.nov_passengers r
                                      + PassengerCsv.dec_passengers r) (snd kg)))).
    - unfold total. f_equal.
      rewrite <- (map_map snd (fun g => zsum (map _ g))), zsum_concat.
      apply zsum_perm, Permutation_map, groupby_perm.
    - intros [k g]. simpl. unfold Pd.add64.
      rewrite wrap64_idem, !sum64_wrap, wrap64_add_l, wrap64_add_r. f_equal.
      induction g as [|r g IH]; simpl; lia. }
  split; [exact E|]. intros H. rewrite E. now apply wrap64_id.
Qed.

Lemma passenger_total_is_preserved_witness :
  Pd.sum64 (map Passengers.holiday_travel_volume
              (Passengers.load_airport_passengers
                 (ca_markets ++
                  [ {| PassengerCsv.state_code := None; PassengerCsv.nov_passengers := 7;
                       PassengerCsv.dec_passengers := 7 |};
                    {| PassengerCsv.state_code := Some "AL"; PassengerCsv.nov_passengers := 10;
                       PassengerCsv.dec_passengers := 20 |} ])))
  = 455.
Proof.
  apply passenger_total_is_preserved. unfold in_int64. simpl. lia.
Defined.

(** ** The delay loader: the counts *)

(** X11. In the delay loader's output, total_flights, delayed_flights and
    cancelled_flights of a state are the int64 sums over the markets of the
    state, and each of the three columns adds up (as an int64 sum) to the sum
    of the input column over the rows that have a state code. *)
Theorem delay_counts_are_sums (df : list DelayCsv.row) :
  (forall out, In out (Delays.load_flight_delays df) ->
     let g := rows_of DelayCsv.state_code (Delays.state_code out) df in
     Delays.total_flights out = Pd.sum64 (map DelayCsv.total_flights g)
     /\ Delays.delayed_flights out = Pd.sum64 (map DelayCsv.delayed_flights g)
     /\ Delays.cancelled_flights out = Pd.sum64 (map DelayCsv.cancelled_flights g))
  /\ Pd.sum64 (map Delays.total_flights (Delays.load_flight_delays df))
     = Pd.sum64 (map DelayCsv.total_flights (keyed DelayCsv.state_code df))
  /\ Pd.sum64 (map Delays.delayed_flights (Delays.load_flight_delays df))
     = Pd.sum64 (map DelayCsv.delayed_flights (keyed DelayCsv.state_code df))
  /\ Pd.sum64 (map Delays.cancelled_flights (Delays.load_flight_delays df))
     = Pd.sum64 (map DelayCsv.cancelled_flights (keyed DelayCsv.state_code df)).
Proof.
  split; [|split; [|split]].
  - unfold Delays.load_flight_delays. intros out Hin.
    apply in_aggregated in Hin. destruct Hin as [k [_ ->]]. simpl. auto.
  - unfold Delays.load_flight_delays. rewrite map_map. simpl.
    apply (sum64_of_group_sums DelayCsv.state_code DelayCsv.total_flights).
  - unfold Delays.load_flight_delays. rewrite map_map. simpl.
    apply (sum64_of_group_sums DelayCsv.state_code DelayCsv.delayed_flights).
  - unfold Delays.load_flight_delays. rewrite map_map. simpl.
    apply (sum64_of_group_sums DelayCsv.state_code DelayCsv.cancelled_flights).
Qed.

Lemma delay_counts_are_sums_witness :
  let out := {| Delays.state_code := "TX"; Delays.avg_delay_pct := 17.5;
                Delays.avg_delay_minutes := (3300 / 70)%float;
                Delays.total_flights := 400; Delays.delayed_flights := 70;
                Delays.cancelled_flights := 3 |} in
  In out (Delays.load_flight_delays tx_markets)
  /\ Delays.total_flights out = 400
  /\ Delays.delayed_flights out = 70
  /\ Delays.cancelled_flights out = 3.
Proof.
  intros out.
  assert (Hin : In out (Delays.load_flight_delays tx_markets)) by (left; reflexivity).
  split; [exact Hin|].
  destruct (delay_counts_are_sums tx_markets) as [H _].
  destruct (H out Hin) as (H1 & H2 & H3).
  rewrite H1, H2, H3. repeat split.
Defined.

(** ** The combiner on arbitrary frames *)

Section MergeKeeps.
Context {L R : Type}.
Variable lkey : L -> string.
Variable rkey : R -> string.

Lemma merge_left_keeps (left : list L) (right : list R) (l : L) :
  In l left -> exists o, In (l, o) (Pd.merge_left lkey rkey left right).
Proof.
  intros Hl. unfold Pd.merge_left.
  destruct (Pd.matches lkey rkey l right) as [|r ms] eqn:E.
  - exists None. apply in_flat_map. exists l. split; [exact Hl|]. rewrite E. now left.
  - exists (Some r). apply in_flat_map. exists l. split; [exact Hl|]. rewrite E.
    now left.
Qed.

Lemma merge_left_length (left : list L) (right : list R) :
  (List.length left <= List.length (Pd.merge_left lkey rkey left right))%nat.
Proof.
  unfold Pd.merge_left. induction left as [|l left IH]; [simpl; lia|].
  cbn [flat_map]. rewrite length_app.
  destruct (Pd.matches lkey rkey l right); simpl in *; lia.
Qed.

Lemma has_missing_matched (l : L) (ms : list R) :
  Pd.has_missing (map (fun r => (l, Some r)) ms) = false.
Proof. unfold Pd.has_missing. induction ms as [|r ms IH]; [reflexivity | exact IH]. Qed.

(** The merge leaves a missing value exactly when some left row has no
    match. *)
Lemma has_missing_merge (left : list L) (right : list R) :
  Pd.has_missing (Pd.merge_left lkey rkey left right)
  = existsb (fun l => negb (existsb (String.eqb (lkey l)) (map rkey right))) left.
Proof.
  unfold Pd.has_missing, Pd.merge_left.
  induction left as [|l left IH]; [reflexivity|].
  cbn [flat_map existsb]. rewrite existsb_app, IH. f_equal.
  destruct (Pd.matches lkey rkey l right) as [|r ms] eqn:E.
  - apply matches_nil in E.
    destruct (existsb (String.eqb (lkey l)) (map rkey right)) eqn:F; [|reflexivity].
    apply existsb_eqb_in in F. contradiction.
  - assert (Hin : In (lkey l) (map rkey right)).
    { assert (H : In r (Pd.matches lkey rkey l right)) by (rewrite E; now left).
      apply matches_in in H. destruct H as [Hr Hk]. rewrite <- Hk. now apply in_map. }
    apply existsb_eqb_in in Hin. rewrite Hin.
    apply (has_missing_matched l (r :: ms)).
Qed.

End MergeKeeps.

Lemma existsb_on_map {A B : Type} (f : B -> bool) (g : A -> B) (xs : list A) :
  existsb (fun x => f (g x)) xs = existsb f (map g xs).
Proof. induction xs as [|x xs IH]; simpl; [reflexivity | now rewrite IH]. Qed.

(** The two flags of the combiner, read on the frames. *)
Lemma combine_datasets_flags (P : list Passengers.row) (D : list Delays.row)
  (T : list Temperature.row) :
  NoDup (map Passengers.state_code P) ->
  Combined.combine_datasets P D T
  = map (Combined.fill (some_unmatched T (map Passengers.state_code P))
                       (some_unmatched T (map Delays.state_code D)))
        (Pd.merge_left (fun x : Temperature.row * option Passengers.row =>
                          Temperature.state_code (fst x)) Delays.state_code
           (Pd.merge_left Temperature.state_code Passengers.state_code T P) D).
Proof.
  intros HP. unfold Combined.combine_datasets. cbv zeta.
  rewrite !has_missing_merge.
  rewrite (existsb_on_map
             (fun t => negb (existsb (String.eqb (Temperature.state_code t))
                               (map Delays.state_code D))) fst).
  rewrite (merge_left_rows Temperature.state_code Passengers.state_code T P HP).
  reflexivity.
Qed.

Lemma temperature_part_fill (p_float d_float : bool) (t : Temperature.row)
  (p : option Passengers.row) (d : option Delays.row) :
  temperature_part (Combined.fill p_float d_float (t, p, d)) = t.
Proof. destruct t. reflexivity. Qed.

Lemma combined_has (P : list Passengers.row) (D : list Delays.row)
  (T : list Temperature.row) (t : Temperature.row) :
  In t T ->
  exists p_float d_float p d,
    In (Combined.fill p_float d_float (t, p, d)) (Combined.combine_datasets P D T)
    /\ match p with
       | Some x => In x P /\ Passengers.state_code x = Temperature.state_code t
       | None => ~ In (Temperature.state_code t) (map Passengers.state_code P)
       end
    /\ match d with
       | Some x => In x D /\ Delays.state_code x = Temperature.state_code t
       | None => ~ In (Temperature.state_code t) (map Delays.state_code D)
       end.
Proof.
  intros Ht. unfold Combined.combine_datasets. cbv zeta.
  destruct (merge_left_keeps Temperature.state_code Passengers.state_code T P t Ht)
    as [p Hp].
  destruct (merge_left_keeps (fun x : Temperature.row * option Passengers.row =>
                                Temperature.state_code (fst x)) Delays.state_code
              _ D (t, p) Hp) as [d Hd].
  do 2 eexists. exists p, d.
  split; [apply (in_map (Combined.fill _ _)); exact Hd|].
  apply merge_left_in in Hd. destruct Hd as [_ Hd].
  apply merge_left_in in Hp. destruct Hp as [_ Hp]. auto.
Qed.

(** X13. The combiner never drops a temperature row, whatever the two other
    frames hold: every row of the temperature frame is the temperature part
    of some combined row, every combined row has the temperature part of a
    temperature row, and the combined frame is at least as long. When the
    state codes of the passenger frame and of the delay frame are distinct,
    the temperature parts of the combined rows are exactly the temperature
    frame, row by row. *)
Theorem combiner_keeps_temperature_rows
  (P : list Passengers.row) (D : list Delays.row) (T : list Temperature.row) :
  (forall t, In t T <-> In t (map temperature_part (Combined.combine_datasets P D T)))
  /\ (List.length T <= List.length (Combined.combine_datasets P D T))%nat
  /\ (NoDup (map Passengers.state_code P) -> NoDup (map Delays.state_code D) ->
      map temperature_part (Combined.combine_datasets P D T) = T).
Proof.
  split; [|split].
  - intros t. split.
    + intros Ht. destruct (combined_has P D T t Ht) as (pf & df & p & d & Hin & _).
      apply in_map_iff. exists (Combined.fill pf df (t, p, d)).
      split; [apply temperature_part_fill | exact Hin].
    + intros Hin. apply in_map_iff in Hin. destruct Hin as [row [<- Hin]].
      apply combined_in in Hin. destruct Hin as (pf & df & t & p & d & -> & Ht & _).
      now rewrite temperature_part_fill.
  - unfold Combined.combine_datasets. cbv zeta. rewrite length_map.
    etransitivity; [|apply merge_left_length]. apply merge_left_length.
  - intros HP HD. unfold Combined.combine_datasets. cbv zeta.
    repeat match goal with
           | |- context [Pd.has_missing ?m] => generalize (Pd.has_missing m); intro
           end.
    rewrite map_map.
    rewrite <- (merge_left_rows Temperature.state_code Passengers.state_code T P HP) at 2.
    rewrite <- (merge_left_rows (fun x : Temperature.row * option Passengers.row =>
                                   Temperature.state_code (fst x)) Delays.state_code
                  _ D HD) at 2.
    rewrite !map_map. apply map_ext. intros [[t p] d]. apply temperature_part_fill.
Qed.

Lemma combiner_keeps_temperature_rows_witness :
  map temperature_part
    (Combined.combine_datasets (Passengers.load_airport_passengers ca_markets)
       (Delays.load_flight_delays tx_markets) mixed_temperatures)
  = mixed_temperatures.
Proof.
  apply combiner_keeps_temperature_rows.
  - repeat constructor. simpl. tauto.
  - repeat constructor. simpl. tauto.
Defined.

(** X14. With distinct state codes in the passenger frame and in the delay
    frame, a combined row takes the passenger columns of the passenger row
    of its state and the delay columns of the delay row of its state:
    avg_delay_minutes as it is, avg_delay_pct with NaN replaced by 0, and the
    integer columns as they are when every state of the temperature frame
    has a row in that frame; when some state has none, the columns hold a
    missing value, are float64, and show the integers rounded to float64. *)
Theorem combiner_passes_matched_columns
  (P : list Passengers.row) (D : list Delays.row) (T : list Temperature.row)
  (row : Combined.row) :
  NoDup (map Passengers.state_code P) -> NoDup (map Delays.state_code D) ->
  In row (Combined.combine_datasets P D T) ->
  let p_float := some_unmatched T (map Passengers.state_code P) in
  let d_float := some_unmatched T (map Delays.state_code D) in
  (forall p, In p P -> Passengers.state_code p = Combined.state_code row ->
     Combined.holiday_travel_volume row
     = Some (Pd.held p_float (Passengers.holiday_travel_volume p))
     /\ Combined.nov_passengers row = Some (Pd.held p_float (Passengers.nov_passengers p))
     /\ Combined.dec_passengers row = Some (Pd.held p_float (Passengers.dec_passengers p)))
  /\ (forall d, In d D -> Delays.state_code d = Combined.state_code row ->
        Combined.avg_delay_pct row = Pd.fillna0 (Delays.avg_delay_pct d)
        /\ Combined.avg_delay_minutes row = Delays.avg_delay_minutes d
        /\ Combined.total_flights row = Some (Pd.held d_float (Delays.total_flights d))
        /\ Combined.delayed_flights row
           = Some (Pd.held d_float (Delays.delayed_flights d))
        /\ Combined.cancelled_flights row
           = Some (Pd.held d_float (Delays.cancelled_flights d))).
Proof.
  intros HP HD Hin p_float d_float.
  rewrite (combine_datasets_flags P D T HP) in Hin. fold p_float d_float in Hin.
  apply in_map_iff in Hin. destruct Hin as [[[t p0] d0] [<- H]].
  apply merge_left_in in H. destruct H as [H Hd0].
  apply merge_left_in in H. destruct H as [_ Hp0].
  cbn [fst] in Hd0. simpl. split.
  - intros p Hp Hk. destruct p0 as [x|].
    + destruct Hp0 as [Hx Hkx].
      assert (x = p)
        by (apply (nodup_map_injective Passengers.state_code P); auto; congruence).
      subst x. simpl. auto.
    + destruct Hp0. rewrite <- Hk. now apply in_map.
  - intros d Hd Hk. destruct d0 as [x|].
    + destruct Hd0 as [Hx Hkx].
      assert (x = d)
        by (apply (nodup_map_injective Delays.state_code D); auto; congruence).
      subst x. simpl. auto.
    + destruct Hd0. rewrite <- Hk. now apply in_map.
Qed.

(** X15. In the combiner's output, whatever the three frames hold,
    avg_delay_pct is never NaN and holiday_travel_volume is never missing. *)
Theorem combined_rate_and_volume_are_defined
  (P : list Passengers.row) (D : list Delays.row) (T : list Temperature.row)
  (row : Combined.row) :
  In row (Combined.combine_datasets P D T) ->
  Pd.isna (Combined.avg_delay_pct row) = false
  /\ Combined.holiday_travel_volume row <> None.
Proof.
  intros Hin. apply combined_in in Hin.
  destruct Hin as (pf & df & t & p & d & -> & _). simpl. split.
  - unfold Pd.fillna0.
    destruct (Pd.isna (Combined.float_cell Delays.avg_delay_pct d)) eqn:E;
      [reflexivity | exact E].
  - destruct p; discriminate.
Qed.

(** Wyoming with an airport but no flight: the passenger columns come
    through, and the NaN rate of the delay loader shows as 0. *)
Lemma combiner_passes_matched_columns_witness :
  In wyoming_combined
     (Combined.combine_datasets (Passengers.load_airport_passengers wyoming_airports)
        (Delays.load_flight_delays idle_markets) wyoming_temperatures)
  /\ Combined.holiday_travel_volume wyoming_combined = Some 30
  /\ Combined.avg_delay_pct wyoming_combined = 0%float
  /\ Combined.total_flights wyoming_combined = Some 0.
Proof.
  assert (Hin : In wyoming_combined
                  (Combined.combine_datasets
                     (Passengers.load_airport_passengers wyoming_airports)
                     (Delays.load_flight_delays idle_markets) wyoming_temperatures))
    by (left; reflexivity).
  split; [exact Hin|].
  destruct (combiner_passes_matched_columns _ _ _ _
              (passengers_nodup wyoming_airports) (delays_nodup idle_markets) Hin)
    as [HP HD].
  split.
  - destruct (HP {| Passengers.state_code := "WY"; Passengers.holiday_travel_volume := 30;
                    Passengers.nov_passengers := 10; Passengers.dec_passengers := 20 |})
      as (H & _); [left; reflexivity | reflexivity | exact H].
  - destruct (HD {| Delays.state_code := "WY"; Delays.avg_delay_pct := nan;
                    Delays.avg_delay_minutes := nan; Delays.total_flights := 0;
                    Delays.delayed_flights := 0; Delays.cancelled_flights := 0 |})
      as (H1 & _ & H2 & _); [left; reflexivity | reflexivity |].
    split; [exact H1 | exact H2].
Defined.

(** A volume above 2 ^ 53: beside Hawaii, which has no airport in the
    frame, the column is float64 and the volume shows rounded; without
    Hawaii the column stays int64 and the volume shows as it is. *)
Example large_volume_is_rounded :
  map Combined.holiday_travel_volume
    (Combined.combine_datasets (Passengers.load_airport_passengers crowded_airports)
       (Delays.load_flight_delays idle_markets) wyoming_temperatures)
  = [Some 9007199254740992; Some 0]
  /\ map Combined.holiday_travel_volume
       (Combined.combine_datasets (Passengers.load_airport_passengers crowded_airports)
          (Delays.load_flight_delays idle_markets) (firstn 1 wyoming_temperatures))
     = [Some 9007199254740993].
Proof. split; reflexivity. Qed.

Lemma combined_rate_and_volume_are_defined_witness :
  In wyoming_combined
     (Combined.combine_datasets (Passengers.load_airport_passengers wyoming_airports)
        (Delays.load_flight_delays idle_markets) wyoming_temperatures)
  /\ Pd.isna (Combined.avg_delay_pct wyoming_combined) = false
  /\ Combined.holiday_travel_volume wyoming_combined <> None.
Proof.
  assert (Hin : In wyoming_combined
                  (Combined.combine_datasets
                     (Passengers.load_airport_passengers wyoming_airports)
                     (Delays.load_flight_delays idle_markets) wyoming_temperatures))
    by (left; reflexivity).
  split; [exact Hin|].
  exact (combined_rate_and_volume_are_defined _ _ _ _ Hin).
Defined.

(** ** The conversion of a figure dictionary *)

Lemma pyobj_induction (P : Dashboard.pyobj -> Prop) :
  (forall items, Forall (fun kv => P (snd kv)) items -> P (Dashboard.PyDict items)) ->
  (forall items, Forall P items -> P (Dashboard.PyList items)) ->
  (forall items, Forall P items -> P (Dashboard.PyTuple items)) ->
  (forall a, P (Dashboard.NdArray a)) ->
  (forall z, P (Dashboard.NpInteger z)) ->
  (forall f, P (Dashboard.NpFloating f)) ->
  (forall t, P (Dashboard.NpOther t)) ->
  (forall z, P (Dashboard.PyInt z)) ->
  (forall f, P (Dashboard.PyFloat f)) ->
  (forall s, P (Dashboard.PyStr s)) ->
  (forall b, P (Dashboard.PyBool b)) ->
  P Dashboard.PyNone ->
  (forall t, P (Dashboard.PyOther t)) ->
  forall o, P o.
Proof.
  intros Hd Hl Ht Ha Hi Hf Ho Hz Hx Hs Hb Hn Hp. fix IH 1.
  intros [items|items|items|a|z|f|t|z|f|s|b| |t];
    [ | | |apply Ha|apply Hi|apply Hf|apply Ho|apply Hz|apply Hx|apply Hs|apply Hb
    |apply Hn|apply Hp].
  - apply Hd. induction items as [|[k v] items IHl]; constructor;
      [apply IH | exact IHl].
  - apply Hl. induction items as [|v items IHl]; constructor; [apply IH | exact IHl].
  - apply Ht. induction items as [|v items IHl]; constructor; [apply IH | exact IHl].
Qed.

Lemma map_fixed {A : Type} (f : A -> A) (l : list A) :
  Forall (fun x => f x = x) l -> map f l = l.
Proof. induction 1 as [|x l Hx _ IH]; simpl; [reflexivity | now rewrite Hx, IH]. Qed.

(** X20. A value without any numpy array or numpy scalar is returned
    unchanged. *)
Theorem convert_to_serializable_keeps_plain_values (obj : Dashboard.pyobj) :
  Dashboard.numpy_free obj = true -> Dashboard.convert_to_serializable obj = obj.
Proof.
  induction obj as [items IH|items IH|items IH|a|z|f|t|z|f|s|b| |t]
    using pyobj_induction;
    simpl; intros H; try reflexivity; try discriminate.
  - f_equal. rewrite forallb_forall in H. rewrite Forall_forall in IH.
    apply map_fixed. apply Forall_forall. intros [k v] Hin. f_equal.
    apply (IH (k, v) Hin). exact (H (k, v) Hin).
  - f_equal. rewrite forallb_forall in H. rewrite Forall_forall in IH.
    apply map_fixed. apply Forall_forall. intros v Hin. apply IH; auto.
Qed.

Example convert_figure :
  Dashboard.convert_to_serializable
    (Dashboard.PyDict
       [ ("z", Dashboard.NdArray (Dashboard.NdAxis [Dashboard.NdInt 1; Dashboard.NdInt 2]));
         ("height", Dashboard.NpInteger 500);
         ("size", Dashboard.PyTuple [Dashboard.NpInteger 3]) ])
  = Dashboard.PyDict
      [ ("z", Dashboard.PyList [Dashboard.PyInt 1; Dashboard.PyInt 2]);
        ("height", Dashboard.PyFloat 500);
        ("size", Dashboard.PyTuple [Dashboard.NpInteger 3]) ].
Proof. reflexivity. Qed.

(** Arrays of objects give their elements as they are, and a numpy scalar
    that is neither an integer nor a floating number is not converted. *)
Example convert_other_numpy_values :
  Dashboard.convert_to_serializable
    (Dashboard.PyDict
       [ ("text", Dashboard.NdArray
                    (Dashboard.NdAxis [Dashboard.NdObject (Dashboard.NpInteger 1);
                                       Dashboard.NdStr "AL"; Dashboard.NdBool true]));
         ("visible", Dashboard.NpOther "True");
         ("count", Dashboard.NpInteger (2 ^ 64 - 1)) ])
  = Dashboard.PyDict
      [ ("text", Dashboard.PyList [Dashboard.NpInteger 1; Dashboard.PyStr "AL";
                                   Dashboard.PyBool true]);
        ("visible", Dashboard.NpOther "True");
        ("count", Dashboard.PyFloat 0x1p64) ].
Proof. reflexivity. Qed.

Lemma convert_to_serializable_keeps_plain_values_witness :
  Dashboard.convert_to_serializable
    (Dashboard.PyDict [ ("locations", Dashboard.PyList [Dashboard.PyStr "AL"]);
                        ("margin", Dashboard.PyTuple [Dashboard.PyInt 0]) ])
  = Dashboard.PyDict [ ("locations", Dashboard.PyList [Dashboard.PyStr "AL"]);
                       ("margin", Dashboard.PyTuple [Dashboard.PyInt 0]) ].
Proof.
  apply convert_to_serializable_keeps_plain_values. reflexivity.
Defined.

(** ** The FIPS codes that resolve *)

Lemma table_entry_resolves (k : string) (v : string * string) :
  In (k, v) STATE_FIPS ->
  dict_get STATE_FIPS (Temperature.state_fips_2 (String "0" k)) = Some v.
Proof.
  intros H. simpl in H.
  repeat (destruct H as [H|H]; [injection H as <- <-; reflexivity|]).
  destruct H.
Qed.

(** X22. A group whose FIPS field has 3 characters resolves to a row exactly
    when the field is a zero followed by a key of [STATE_FIPS]; the row then
    has the code and name of that key and the two means of the group. Every
    other FIPS (049, 110, ...) is dropped. *)
Theorem resolve_iff_table_code (m : Temperature.state_mean) (r : Temperature.row) :
  String.length (Temperature.mean_fips m) = 3%nat ->
  Temperature.resolve m = Some r
  <-> exists k,
        Temperature.mean_fips m = String "0" k
        /\ In (k, (Temperature.state_code r, Temperature.state_name r)) STATE_FIPS
        /\ Temperature.avg_dec_temperature r = Temperature.mean_dec m
        /\ Temperature.avg_nov_temperature r = Temperature.mean_nov m.
Proof.
  intros Hlen. split.
  - intros H. apply resolve_some in H. destruct H as (Hd & H1 & H2).
    exists (Temperature.state_fips_2 (Temperature.mean_fips m)).
    split; [now apply (resolved_fips _ _ Hlen Hd)|].
    split; [now apply dict_get_in | auto].
  - intros [k (Hf & Hin & H1 & H2)]. unfold Temperature.resolve.
    rewrite Hf, (table_entry_resolves _ _ Hin).
    destruct r; simpl in *. congruence.
Qed.

Lemma resolve_iff_table_code_witness :
  Temperature.resolve {| Temperature.mean_fips := "041"; Temperature.mean_dec := 50;
                         Temperature.mean_nov := 60 |}
  = Some {| Temperature.state_code := "TX"; Temperature.state_name := "Texas";
            Temperature.avg_dec_temperature := 50; Temperature.avg_nov_temperature := 60 |}
  /\ Temperature.resolve {| Temperature.mean_fips := "049"; Temperature.mean_dec := 50;
                            Temperature.mean_nov := 60 |} = None.
Proof.
  split.
  - apply resolve_iff_table_code; [reflexivity|].
    exists "41". split; [reflexivity|]. split; [|split; reflexivity].
    apply (dict_get_in STATE_FIPS "41"). reflexivity.
  - reflexivity.
Defined.
